(** * Signal-Studio: the signal store and the sampling pipeline of task2.py

    A shallow embedding of the numeric core of [task2.py]: the classes
    [Signal] and [SignalManager] and the methods of [GUI] that sample and
    reconstruct the combined signal.

    Modelling choices.
    - A float is a rational ([Q]) and [+ - * /] are exact: float64 rounding is
      not modelled.  Arrays ([numpy.ndarray], [pandas.Series], Python lists
      of floats) are [list Q]; integer dtypes and non-numeric cells are
      outside the model.
    - Python integers (identifiers, slider values) are [Z].
    - The methods run in a state-and-exception monad over [App], the state
      of the running program: an exception keeps the state changes made
      before it was raised, as in Python.
    - Library functions whose values are not rational (sin, sqrt, power, the
      spectral interpolation of scipy's resample) and [float(text)] are the
      fields of the class [Library]; what numpy, pandas and scipy do to the
      shape of the data (lengths, broadcasting, errors) is written out.
    - Widgets are reduced to what the methods store in them: the curves shown
      and the message boxes opened.
    - No method writes into an array after building it (the one in-place
      update, [combined_amplitude += ...], is on an array made by the same
      call), so arrays are values and their sharing between signals and the
      GUI is not modelled. *)

From Stdlib Require Import String ZArith QArith Qround Bool Lia Lqa List Sorted.
Import ListNotations.

Set Implicit Arguments.

(** ** Exceptions and the monad *)

Inductive exn : Type :=
| ValueError
| IndexError
| ZeroDivisionError
| AttributeError
| OSError.

Inductive result (A : Type) : Type :=
| Ok (a : A)
| Raise (e : exn).

Arguments Ok {A} a.
Arguments Raise {A} e.

(** ** Data model *)

(** class Signal *)
Record Signal : Type := mkSignal {
  amplitude : list Q;
  time : list Q;
  frequency : option Q;
  signal_id : Z;
  signal_type : string
}.

(** class SignalManager; [plot_callback] is always [GUI.plot_signals]. *)
Record SignalManager : Type := mkSignalManager {
  signals : list Signal;
  next_signal_id : Z;
  snr : Z
}.

(** What [pd.read_csv] returns: a table of [df_rows] rows, column by column. *)
Record DataFrame : Type := mkDataFrame {
  df_rows : nat;
  df_columns : list (list Q)
}.

Definition df_wf (d : DataFrame) : Prop :=
  Forall (fun c => length c = df_rows d) (df_columns d).

(** data.shape[1] *)
Definition shape1 (d : DataFrame) : nat := length (df_columns d).

(** data.iloc[:, j], for j below shape[1] *)
Definition iloc_column (d : DataFrame) (j : nat) : list Q := nth j (df_columns d) [].

Inductive icon : Type := Warning | Critical | Information.

Record dialog : Type := MessageBox {
  dialog_icon : icon;
  dialog_title : string;
  dialog_text : string
}.

(** A curve handed to a plot widget: x values and y values. *)
Definition curve : Type := (list Q * list Q)%type.

(** The state of the program: the GUI object with its SignalManager, the
    message boxes opened so far, numpy's global random generator (the
    standard-normal draws it will deliver next) and the files as pandas
    reads them. *)
Record App : Type := mkApp {
  signal_manager : SignalManager;
  gui_time : list Q;
  gui_amplitude : list Q;
  sampling_frequency : Z;
  samples : option (list Q);
  sampled_amplitude : list Q;
  original_plot : option curve;
  noisy_plot : option curve;
  sampled_items : option (list curve);
  reconstruction_viewer : list curve;
  dialogs : list dialog;
  random_state : nat -> Q;
  read_csv : string -> exn + DataFrame
}.

Definition M (A : Type) : Type := App -> result A * App.

Definition ret {A} (a : A) : M A := fun w => (Ok a, w).

Definition raise {A} (e : exn) : M A := fun w => (Raise e, w).

Definition bind {A B} (m : M A) (k : A -> M B) : M B :=
  fun w =>
    match m w with
    | (Ok a, w') => k a w'
    | (Raise e, w') => (Raise e, w')
    end.

(** try: body / except: handler *)
Definition try_except {A} (body : M A) (handler : exn -> M A) : M A :=
  fun w =>
    match body w with
    | (Ok a, w') => (Ok a, w')
    | (Raise e, w') => handler e w'
    end.

Definition gets {A} (f : App -> A) : M A := fun w => (Ok (f w), w).

Definition modify (f : App -> App) : M unit := fun w => (Ok tt, f w).

Declare Scope py_scope.
Delimit Scope py_scope with py.
Notation "x <- c1 ;; c2" := (bind c1 (fun x => c2))
  (at level 61, c1 at next level, right associativity) : py_scope.
Notation "c1 ;; c2" := (bind c1 (fun _ => c2))
  (at level 61, right associativity) : py_scope.

(** for x in l: body x *)
Fixpoint for_each {A} (l : list A) (body : A -> M unit) : M unit :=
  match l with
  | [] => ret tt
  | x :: l' => bind (body x) (fun _ => for_each l' body)
  end.

(** ** Attribute updates *)

Definition set_signal_manager (m : SignalManager) (w : App) : App :=
  mkApp m (gui_time w) (gui_amplitude w) (sampling_frequency w) (samples w)
    (sampled_amplitude w) (original_plot w) (noisy_plot w) (sampled_items w)
    (reconstruction_viewer w) (dialogs w) (random_state w) (read_csv w).

Definition set_gui_time (t : list Q) (w : App) : App :=
  mkApp (signal_manager w) t (gui_amplitude w) (sampling_frequency w) (samples w)
    (sampled_amplitude w) (original_plot w) (noisy_plot w) (sampled_items w)
    (reconstruction_viewer w) (dialogs w) (random_state w) (read_csv w).

Definition set_gui_amplitude (a : list Q) (w : App) : App :=
  mkApp (signal_manager w) (gui_time w) a (sampling_frequency w) (samples w)
    (sampled_amplitude w) (original_plot w) (noisy_plot w) (sampled_items w)
    (reconstruction_viewer w) (dialogs w) (random_state w) (read_csv w).

Definition set_sampling_frequency (f : Z) (w : App) : App :=
  mkApp (signal_manager w) (gui_time w) (gui_amplitude w) f (samples w)
    (sampled_amplitude w) (original_plot w) (noisy_plot w) (sampled_items w)
    (reconstruction_viewer w) (dialogs w) (random_state w) (read_csv w).

Definition set_samples (s : list Q) (w : App) : App :=
  mkApp (signal_manager w) (gui_time w) (gui_amplitude w) (sampling_frequency w)
    (Some s) (sampled_amplitude w) (original_plot w) (noisy_plot w)
    (sampled_items w) (reconstruction_viewer w) (dialogs w) (random_state w)
    (read_csv w).

Definition set_sampled_amplitude (a : list Q) (w : App) : App :=
  mkApp (signal_manager w) (gui_time w) (gui_amplitude w) (sampling_frequency w)
    (samples w) a (original_plot w) (noisy_plot w) (sampled_items w)
    (reconstruction_viewer w) (dialogs w) (random_state w) (read_csv w).

Definition set_original_plot (c : curve) (w : App) : App :=
  mkApp (signal_manager w) (gui_time w) (gui_amplitude w) (sampling_frequency w)
    (samples w) (sampled_amplitude w) (Some c) (noisy_plot w) (sampled_items w)
    (reconstruction_viewer w) (dialogs w) (random_state w) (read_csv w).

Definition set_noisy_plot (c : curve) (w : App) : App :=
  mkApp (signal_manager w) (gui_time w) (gui_amplitude w) (sampling_frequency w)
    (samples w) (sampled_amplitude w) (original_plot w) (Some c) (sampled_items w)
    (reconstruction_viewer w) (dialogs w) (random_state w) (read_csv w).

Definition set_sampled_items (l : list curve) (w : App) : App :=
  mkApp (signal_manager w) (gui_time w) (gui_amplitude w) (sampling_frequency w)
    (samples w) (sampled_amplitude w) (original_plot w) (noisy_plot w) (Some l)
    (reconstruction_viewer w) (dialogs w) (random_state w) (read_csv w).

Definition set_reconstruction_viewer (l : list curve) (w : App) : App :=
  mkApp (signal_manager w) (gui_time w) (gui_amplitude w) (sampling_frequency w)
    (samples w) (sampled_amplitude w) (original_plot w) (noisy_plot w)
    (sampled_items w) l (dialogs w) (random_state w) (read_csv w).

Definition set_dialogs (l : list dialog) (w : App) : App :=
  mkApp (signal_manager w) (gui_time w) (gui_amplitude w) (sampling_frequency w)
    (samples w) (sampled_amplitude w) (original_plot w) (noisy_plot w)
    (sampled_items w) (reconstruction_viewer w) l (random_state w) (read_csv w).

Definition set_random_state (g : nat -> Q) (w : App) : App :=
  mkApp (signal_manager w) (gui_time w) (gui_amplitude w) (sampling_frequency w)
    (samples w) (sampled_amplitude w) (original_plot w) (noisy_plot w)
    (sampled_items w) (reconstruction_viewer w) (dialogs w) g (read_csv w).

(** QMessageBox.warning / critical / exec_ of an information box *)
Definition message_box (i : icon) (title text : string) : M unit :=
  modify (fun w => set_dialogs (dialogs w ++ [MessageBox i title text]) w).

(** An attribute that is set only by a method: reading it before raises. *)
Definition attribute {A} (f : App -> option A) : M A :=
  fun w =>
    match f w with
    | Some a => (Ok a, w)
    | None => (Raise AttributeError, w)
    end.

Definition lift {A} (r : result A) : M A := fun w => (r, w).

(** ** Python and numpy primitives *)

Definition len {A} (l : list A) : Z := Z.of_nat (length l).

(** l[i] on a list or a one-dimensional array: a negative index counts from
    the end, an index out of range raises IndexError. *)
Definition getitem (l : list Q) (i : Z) : result Q :=
  if ((0 <=? i) && (i <? len l))%Z then Ok (nth (Z.to_nat i) l 0)
  else if ((- len l <=? i) && (i <? 0))%Z then Ok (nth (Z.to_nat (len l + i)) l 0)
  else Raise IndexError.

(** a / b on Python integers: true division, ZeroDivisionError when b is 0. *)
Definition py_truediv (a b : Z) : result Q :=
  if (b =? 0)%Z then Raise ZeroDivisionError else Ok (inject_Z a / inject_Z b).

Definition Qlt_bool (x y : Q) : bool := negb (Qle_bool y x).

(** np.arange(start, stop, step) on floats, step not 0:
    ceil((stop - start) / step) values start + i * step. *)
Definition np_arange (start stop step : Q) : list Q :=
  map (fun i => start + inject_Z (Z.of_nat i) * step)
      (seq 0 (Z.to_nat (Qceiling ((stop - start) / step)))).

(** np.linspace(start, stop, num): num values from start to stop, the last
    one set to stop. *)
Definition np_linspace (start stop : Q) (num : nat) : list Q :=
  match num with
  | O => []
  | 1%nat => [start]
  | S div =>
      map (fun i => start + inject_Z (Z.of_nat i) * ((stop - start) / inject_Z (Z.of_nat div)))
          (seq 0 div) ++ [stop]
  end.

(** np.zeros_like(a) *)
Definition np_zeros_like (a : list Q) : list Q := map (fun _ => 0) a.

(** One value of np.interp over the points (x0, y0) :: rest, for x above x0:
    the segment that holds x, and the last ordinate to the right of all. *)
Fixpoint interp_from (x x0 y0 : Q) (rest : list (Q * Q)) : Q :=
  match rest with
  | [] => y0
  | (x1, y1) :: rest' =>
      if Qlt_bool x x1 then y0 + (y1 - y0) / (x1 - x0) * (x - x0)
      else interp_from x x1 y1 rest'
  end.

Definition interp1 (xp fp : list Q) (x : Q) : Q :=
  match combine xp fp with
  | [] => 0
  | (x0, y0) :: rest => if Qle_bool x x0 then y0 else interp_from x x0 y0 rest
  end.

(** np.interp(x, xp, fp): piecewise linear interpolation through the points
    (xp, fp), xp increasing; ValueError when xp is empty or xp and fp differ
    in length. *)
Definition np_interp (x xp fp : list Q) : result (list Q) :=
  match xp with
  | [] => Raise ValueError
  | _ => if (length xp =? length fp)%nat then Ok (map (interp1 xp fp) x)
         else Raise ValueError
  end.

(** c += a on arrays: a is added pointwise when the lengths agree, a one-value
    array is broadcast, anything else raises ValueError. *)
Definition iadd (c a : list Q) : result (list Q) :=
  if (length a =? length c)%nat then Ok (map (fun p => fst p + snd p) (combine c a))
  else if (length a =? 1)%nat then Ok (map (fun x => x + hd 0 a) c)
  else Raise ValueError.

(** np.mean(a) *)
Definition np_mean (a : list Q) : Q :=
  fold_right Qplus 0 a / inject_Z (len a).

(** np.random.normal(0, 1, n): the next n draws of the standard normal
    generator, which moves on by n. *)
Definition np_random_normal (n : nat) : M (list Q) :=
  fun w => (Ok (map (random_state w) (seq 0 n)),
            set_random_state (fun i => random_state w (n + i)%nat) w).

(** ** The numeric library *)

(** float(text) and the functions of numpy and scipy whose values the model
    leaves open.  [py_float] is None where float() raises ValueError (texts
    that read as inf or nan have no value in the model);
    [fft_resample x num] is the amplitude that scipy.signal.resample
    computes from a non-empty x (the inverse transform of the padded or cut
    spectrum, scaled), which has num values. *)
Class Library : Type := {
  py_float : string -> option Q;
  np_pi : Q;
  np_sin : Q -> Q;
  np_sqrt : Q -> Q;
  py_pow : Q -> Q -> Q;
  fft_resample : list Q -> nat -> list Q;
  fft_resample_length :
    forall x num, x <> [] -> length (fft_resample x num) = num
}.

Section Program.

Context {L : Library}.

Local Open Scope py_scope.

(** scipy.signal.resample(x, num, t) returns (y, new_t).  The transform of an
    empty x raises ValueError.  y has num values.  The new time axis is
    np.arange(0, num) * (t[1] - t[0]) * len(x) / num + t[0]: it reads the
    first two values of t (t[1] first), so a t of fewer than two values
    raises IndexError. *)
Definition scipy_signal_resample (x : list Q) (num : nat) (t : list Q)
  : result (list Q * list Q) :=
  match x with
  | [] => Raise ValueError
  | _ =>
      let y := fft_resample x num in
      match getitem t 1 with
      | Raise e => Raise e
      | Ok t1 =>
          match getitem t 0 with
          | Raise e => Raise e
          | Ok t0 =>
              Ok (y, map (fun i => inject_Z (Z.of_nat i) * (t1 - t0)
                                   * inject_Z (len x) / inject_Z (Z.of_nat num) + t0)
                         (seq 0 num))
          end
      end
  end.

(** ** SignalManager *)

Definition append_signal (s : Signal) (m : SignalManager) : SignalManager :=
  mkSignalManager (signals m ++ [s]) (next_signal_id m) (snr m).

Definition incr_next_signal_id (m : SignalManager) : SignalManager :=
  mkSignalManager (signals m) (next_signal_id m + 1) (snr m).

Definition modify_manager (f : SignalManager -> SignalManager) : M unit :=
  modify (fun w => set_signal_manager (f (signal_manager w)) w).

(** SignalManager.set_snr *)
Definition set_snr (snr_value : Z) : M unit :=
  modify_manager (fun m => mkSignalManager (signals m) (next_signal_id m) snr_value).

(** The loop [for signal in self.signals: combined_amplitude += signal.amplitude]. *)
Fixpoint sum_amplitudes (combined : list Q) (l : list Signal) : result (list Q) :=
  match l with
  | [] => Ok combined
  | s :: l' =>
      match iadd combined (amplitude s) with
      | Ok c => sum_amplitudes c l'
      | Raise e => Raise e
      end
  end.

(** noise_power = signal_power / (10 ** (self.snr / 10)) *)
Definition noise_power_of (combined : list Q) (snr_value : Z) : Q :=
  np_mean (map (fun c => c * c) combined) / py_pow 10 (inject_Z snr_value / 10).

(** SignalManager.get_combined_signal_with_noise; None stands for the pair
    (None, None). *)
Definition get_combined_signal_with_noise : M (option (list Q * list Q)) :=
  self_signals <- gets (fun w => signals (signal_manager w)) ;;
  match self_signals with
  | [] => ret None
  | first :: _ =>
      let time := time first in
      combined_amplitude <- lift (sum_amplitudes (np_zeros_like time) self_signals) ;;
      self_snr <- gets (fun w => snr (signal_manager w)) ;;
      let noise_power := noise_power_of combined_amplitude self_snr in
      draws <- np_random_normal (length combined_amplitude) ;;
      let noise := map (fun z => np_sqrt noise_power * z) draws in
      let noisy_signal := map (fun p => fst p + snd p) (combine combined_amplitude noise) in
      ret (Some (time, noisy_signal))
  end.

(** ** GUI: sampling, reconstruction, display *)

(** GUI.plot *)
Definition plot (time amplitude : list Q) : M unit :=
  modify (set_original_plot (time, amplitude)).

(** GUI.stem_plot: one vertical line per sample, then the dots. *)
Definition stem_plot (time amplitude : list Q) : M unit :=
  modify (set_sampled_items
            (map (fun p => ([fst p; fst p], [0; snd p])) (combine time amplitude)
             ++ [(time, amplitude)])).

(** GUI.take_samples *)
Definition take_samples (time amplitude : list Q) (sampling_frequency : Z) : M unit :=
  t0 <- lift (getitem time 0) ;;
  tN <- lift (getitem time (len time - 1)) ;;
  step <- lift (py_truediv 1 sampling_frequency) ;;
  modify (set_samples (np_arange t0 tN step)) ;;
  self_samples <- attribute samples ;;
  sampled <- lift (np_interp self_samples time amplitude) ;;
  modify (set_sampled_amplitude sampled) ;;
  self_time <- gets gui_time ;;
  self_amplitude <- gets gui_amplitude ;;
  plot self_time self_amplitude.

(** GUI.reconstruct *)
Definition reconstruct (samples sampled_amplitude : list Q) : M unit :=
  modify (set_reconstruction_viewer []) ;;
  r <- lift (scipy_signal_resample sampled_amplitude 5000 samples) ;;
  let reconstructed_amplitude := fst r in
  let reconstructed_time := snd r in
  modify (fun w => set_reconstruction_viewer
                     (reconstruction_viewer w ++ [(reconstructed_time, reconstructed_amplitude)]) w).

(** GUI.start *)
Definition start (amplitude time : list Q) : M unit :=
  modify (set_gui_time time) ;;
  modify (set_gui_amplitude amplitude) ;;
  self_time <- gets gui_time ;;
  self_amplitude <- gets gui_amplitude ;;
  f <- gets sampling_frequency ;;
  take_samples self_time self_amplitude f ;;
  s <- attribute samples ;;
  a <- gets sampled_amplitude ;;
  stem_plot s a ;;
  self_time <- gets gui_time ;;
  self_amplitude <- gets gui_amplitude ;;
  plot self_time self_amplitude ;;
  s <- attribute samples ;;
  a <- gets sampled_amplitude ;;
  reconstruct s a.

(** GUI.plot_signals, the SignalManager's plot_callback *)
Definition plot_signals : M unit :=
  self_signals <- gets (fun w => signals (signal_manager w)) ;;
  match self_signals with
  | [] => message_box Warning "No Signal" "No signals to plot."
  | _ =>
      r <- get_combined_signal_with_noise ;;
      match r with
      | None => ret tt
      | Some (time, noisy_signal) =>
          modify (set_noisy_plot (time, noisy_signal)) ;;
          start noisy_signal time
      end
  end.

(** GUI.update_plot_with_noise, with the value of the SNR slider *)
Definition update_plot_with_noise (slider_value : Z) : M unit :=
  set_snr slider_value ;;
  plot_signals.

(** GUI.update_stem_plot, with the value of the frequency slider *)
Definition update_stem_plot (slider_value : Z) : M unit :=
  modify (set_sampling_frequency slider_value) ;;
  try_except
    (self_time <- gets gui_time ;;
     self_amplitude <- gets gui_amplitude ;;
     f <- gets sampling_frequency ;;
     take_samples self_time self_amplitude f ;;
     s <- attribute samples ;;
     a <- gets sampled_amplitude ;;
     stem_plot s a ;;
     s <- attribute samples ;;
     a <- gets sampled_amplitude ;;
     reconstruct s a)
    (fun _ => message_box Information "Upload Error !" "Upload Signal first").

(** ** SignalManager: the operations that add a signal *)

(** The body of the loop of SignalManager.upload_signal for one chosen file.
    pd.read_csv returns a DataFrame, whose ndim is 2, so the reshape under
    [if data.ndim == 1] never runs and is left out.  The text of the critical
    box leaves out the exception's own message. *)
Definition upload_file (file_path : string) : M unit :=
  try_except
    (pd <- gets read_csv ;;
     match pd file_path with
     | inl e => raise e
     | inr data =>
         if (shape1 data <? 2)%nat then
           message_box Warning "Invalid Data"
             ("CSV file '" ++ file_path ++ "' must contain at least two columns: time and amplitude.")
         else
           let time := iloc_column data 0 in
           let amplitude := iloc_column data 1 in
           signal_id <- gets (fun w => next_signal_id (signal_manager w)) ;;
           let signal := mkSignal amplitude time None signal_id "UPLOADED" in
           modify_manager (append_signal signal) ;;
           modify_manager incr_next_signal_id ;;
           plot_signals
     end)
    (fun _ => message_box Critical "Error" ("Failed to load signal '" ++ file_path ++ "'")).

(** SignalManager.upload_signal, with the files chosen in the dialog *)
Definition upload_signal (file_paths : list string) : M unit :=
  for_each file_paths upload_file.

(** SignalManager.add_signal_component, with the two input texts *)
Definition add_signal_component (frequency amplitude_value : string) : M unit :=
  try_except
    (match py_float frequency with
     | None => raise ValueError
     | Some frequency =>
         match py_float amplitude_value with
         | None => raise ValueError
         | Some amplitude_value =>
             signal_id <- gets (fun w => next_signal_id (signal_manager w)) ;;
             self_signals <- gets (fun w => signals (signal_manager w)) ;;
             let time :=
               match self_signals with
               | first :: _ => time first
               | [] => np_linspace 0 (1000 / 1000) 1000
               end in
             let amplitude :=
               map (fun t => amplitude_value * np_sin (2 * np_pi * frequency * t)) time in
             let signal := mkSignal amplitude time (Some frequency) signal_id "sinusoidal" in
             modify_manager (append_signal signal) ;;
             modify_manager incr_next_signal_id ;;
             plot_signals
         end
     end)
    (fun e =>
       match e with
       | ValueError =>
           message_box Warning "Invalid Input"
             "Please enter valid numbers for frequency and amplitude."
       | _ => raise e
       end).


(** The four operations of the store, as a session calls them. *)
Inductive store_op : Type :=
| Upload (file_paths : list string)
| AddComponent (frequency amplitude_value : string)
| SetSnr (snr_value : Z)
| GetCombined.

(** One operation of a session; the session goes on from the state the
    operation left, whether it returned or raised. *)
Definition run_op (op : store_op) (w : App) : App :=
  match op with
  | Upload file_paths => snd (upload_signal file_paths w)
  | AddComponent frequency amplitude_value =>
      snd (add_signal_component frequency amplitude_value w)
  | SetSnr snr_value => snd (set_snr snr_value w)
  | GetCombined => snd (get_combined_signal_with_noise w)
  end.

Fixpoint run_ops (ops : list store_op) (w : App) : App :=
  match ops with
  | [] => w
  | op :: ops' => run_ops ops' (run_op op w)
  end.

End Program.

(** ** The program at start-up *)

(** SignalManager.__init__ and the attributes GUI.__init__ sets: no signal,
    identifier 1 next, SNR 40, empty time, amplitude and sampled amplitude,
    sampling frequency 1.  The attribute samples and the plot items do not
    exist yet. *)
Definition initial_manager : SignalManager := mkSignalManager [] 1 40.

Definition initial_app (draws : nat -> Q) (files : string -> exn + DataFrame) : App :=
  mkApp initial_manager [] [] 1 None [] None None None [] [] draws files.

(** ** Properties of the store that the claims speak of *)

Definition ids (m : SignalManager) : list Z := map signal_id (signals m).

(** The identifiers handed out so far are 1, 2, ..., n in insertion order and
    the next one is n + 1. *)
Definition store_inv (m : SignalManager) : Prop :=
  ids m = map Z.of_nat (seq 1 (length (signals m)))
  /\ next_signal_id m = (len (signals m) + 1)%Z.

(** Unique, strictly increasing in insertion order, starting from 1, all
    below the next identifier. *)
Definition ids_well_formed (m : SignalManager) : Prop :=
  NoDup (ids m)
  /\ StronglySorted Z.lt (ids m)
  /\ (forall s, hd_error (signals m) = Some s -> signal_id s = 1%Z)
  /\ Forall (fun i => (i < next_signal_id m)%Z) (ids m).

(** Every signal of m is still in m', unchanged and at its place. *)
Definition append_only (m m' : SignalManager) : Prop :=
  exists added, signals m' = signals m ++ added.

(** What one successful load or add does to the store. *)
Definition adds_one (m m' : SignalManager) : Prop :=
  exists s, signal_id s = next_signal_id m
            /\ m' = mkSignalManager (signals m ++ [s]) (next_signal_id m + 1) (snr m).

(** One step of the store: nothing is lost, and a store with identifiers
    1..n stays one, with well-formed identifiers. *)
Definition store_step (m m' : SignalManager) : Prop :=
  append_only m m' /\ (store_inv m -> store_inv m' /\ ids_well_formed m').

(** The sum of the i-th amplitudes of the signals, as the spec words it. *)
Definition pointwise_sum (l : list Signal) (i : nat) : Q :=
  fold_right Qplus 0 (map (fun s => nth i (amplitude s) 0) l).

(** A computation that leaves the SignalManager as it found it. *)
Definition keeps_manager {A} (m : M A) : Prop :=
  forall w, signal_manager (snd (m w)) = signal_manager w.

(** ** A rational instance of the library, to run the model *)

Definition digit_of (c : Ascii.ascii) : option Z :=
  let n := Ascii.nat_of_ascii c in
  if ((48 <=? n) && (n <=? 57))%nat then Some (Z.of_nat (n - 48)) else None.

Fixpoint parse_digits (s : string) (acc : Z) : option Z :=
  match s with
  | EmptyString => Some acc
  | String c s' =>
      match digit_of c with
      | Some d => parse_digits s' (10 * acc + d)%Z
      | None => None
      end
  end.

(** Unsigned decimal integers only: a fragment of what float() accepts. *)
Definition parse_decimal (s : string) : option Q :=
  match s with
  | EmptyString => None
  | _ => option_map inject_Z (parse_digits s 0)
  end.

(** Zero-order hold: value number i of num is taken at position
    i * len(x) / num of x. *)
Definition hold_resample (x : list Q) (num : nat) : list Q :=
  map (fun i => nth (i * length x / num) x 0) (seq 0 num).

(** pi as 355/113, sin by its cubic Taylor polynomial, sqrt by two Newton
    steps from 1, b ** x for the integer part of x. *)
Definition rational_library : Library := {|
  py_float := parse_decimal;
  np_pi := 355 # 113;
  np_sin := fun x => x - x * x * x / 6;
  np_sqrt := fun x => let y := (1 + x) / 2 in (y + x / y) / 2;
  py_pow := fun b x => Qpower b (Qfloor x);
  fft_resample := hold_resample;
  fft_resample_length :=
    fun x num _ =>
      eq_trans (length_map (fun i => nth (i * length x / num) x 0) (seq 0 num))
               (length_seq num 0)
|}.

Definition demo_draws (i : nat) : Q := inject_Z (Z.of_nat (i mod 3)) - 1.

Definition demo_files (file_path : string) : exn + DataFrame :=
  if String.eqb file_path "ramp.csv" then
    inr (mkDataFrame 3 [[0; 1; 2]; [5; 6; 7]])
  else if String.eqb file_path "one_column.csv" then
    inr (mkDataFrame 3 [[0; 1; 2]])
  else inl OSError.

Definition demo_app : App := initial_app demo_draws demo_files.

(** The signal of ramp.csv, and a program state whose store holds it. *)
Definition demo_ramp : Signal := mkSignal [5; 6; 7] [0; 1; 2] None 1 "UPLOADED".

Definition demo_loaded : App :=
  set_signal_manager (mkSignalManager [demo_ramp] 2 40) demo_app.

(** ** Notions for the properties of the methods *)

(** A computation that leaves one part of the program state as it found it. *)
Definition keeps {A B} (proj : App -> B) (m : M A) : Prop :=
  forall w, proj (snd (m w)) = proj w.

(** A computation that returns, whatever state it starts from. *)
Definition never_raises {A} (m : M A) : Prop :=
  forall w, exists a, fst (m w) = Ok a.

(** The noisy signal get_combined_signal_with_noise builds from the summed
    amplitudes, the noise ratio and the draws it took. *)
Definition noisy_of {L : Library} (combined : list Q) (snr_value : Z) (draws : list Q)
  : list Q :=
  map (fun p => fst p + snd p)
      (combine combined
         (map (fun z => np_sqrt (noise_power_of combined snr_value) * z) draws)).

(** The first n draws the generator of w will deliver. *)
Definition next_draws (w : App) (n : nat) : list Q := map (random_state w) (seq 0 n).

(** The sample instants take_samples computes and the amplitudes it
    interpolates at them. *)
Definition sample_instants (time : list Q) (f : Z) : list Q :=
  np_arange (hd 0 time) (last time 0) (inject_Z 1 / inject_Z f).

Definition sample_values (time amplitude : list Q) (f : Z) : list Q :=
  map (interp1 time amplitude) (sample_instants time f).


(** The signals upload_signal builds for the chosen files, in order: one for
    each file that reads as a table of at least two columns, numbered from
    next; the other files give none. *)
Fixpoint uploaded_signals (files : string -> exn + DataFrame)
         (file_paths : list string) (next : Z) : list Signal :=
  match file_paths with
  | [] => []
  | p :: rest =>
      match files p with
      | inl _ => uploaded_signals files rest next
      | inr data =>
          if (shape1 data <? 2)%nat then uploaded_signals files rest next
          else mkSignal (iloc_column data 1) (iloc_column data 0) None next "UPLOADED"
               :: uploaded_signals files rest (next + 1)
      end
  end.


(** Points in increasing order of abscissa, as np.interp expects them. *)
Definition by_abscissa (p q : Q * Q) : Prop := fst p < fst q.

(** Every stored signal has one amplitude per time point. *)
Definition aligned (m : SignalManager) : Prop :=
  Forall (fun s => length (amplitude s) = length (time s)) (signals m).

(** Every file that reads as a table has columns of one length, as the
    tables of pandas do. *)
Definition tables_well_formed (files : string -> exn + DataFrame) : Prop :=
  forall p data, files p = inr data -> df_wf data.

(** A session that loads no file. *)
Definition no_upload (op : store_op) : bool :=
  match op with
  | Upload _ => false
  | _ => true
  end.

(** Every stored signal lies on the default time base of 1000 points. *)
Definition on_default_base {L : Library} (m : SignalManager) : Prop :=
  Forall (fun s => time s = np_linspace 0 (1000 / 1000) 1000
                   /\ length (amplitude s) = 1000%nat)
         (signals m).

(** ** Further program states to run the model on *)




(** Files of two rows and of one row. *)
Definition demo_small_files (file_path : string) : exn + DataFrame :=
  if String.eqb file_path "pair.csv" then
    inr (mkDataFrame 2 [[0; 1]; [3; 4]])
  else if String.eqb file_path "single.csv" then
    inr (mkDataFrame 1 [[0]; [3]])
  else inl OSError.

Definition demo_small_app : App := initial_app demo_draws demo_small_files.


(** * Proofs *)

Section Proofs.

Context {L : Library}.

Local Open Scope py_scope.

(** ** The frame of the GUI methods: they never touch the SignalManager *)

Lemma keeps_ret : forall A (a : A), keeps_manager (ret a).
Proof. intros A a w. reflexivity. Qed.

Lemma keeps_raise : forall A (e : exn), keeps_manager (@raise A e).
Proof. intros A e w. reflexivity. Qed.

Lemma keeps_lift : forall A (r : result A), keeps_manager (lift r).
Proof. intros A r w. reflexivity. Qed.

Lemma keeps_gets : forall A (f : App -> A), keeps_manager (gets f).
Proof. intros A f w. reflexivity. Qed.

Lemma keeps_attribute : forall A (f : App -> option A), keeps_manager (attribute f).
Proof. intros A f w. unfold attribute. destruct (f w); reflexivity. Qed.

Lemma keeps_modify :
  forall f, (forall w, signal_manager (f w) = signal_manager w) ->
            keeps_manager (modify f).
Proof. intros f H w. apply H. Qed.

Lemma keeps_bind :
  forall A B (m : M A) (k : A -> M B),
    keeps_manager m -> (forall a, keeps_manager (k a)) -> keeps_manager (bind m k).
Proof.
  intros A B m k Hm Hk w. unfold bind.
  specialize (Hm w). destruct (m w) as [[a | e] w']; simpl in *.
  - rewrite Hk. exact Hm.
  - exact Hm.
Qed.

Lemma keeps_try_except :
  forall A (body : M A) (handler : exn -> M A),
    keeps_manager body -> (forall e, keeps_manager (handler e)) ->
    keeps_manager (try_except body handler).
Proof.
  intros A body handler Hb Hh w. unfold try_except.
  specialize (Hb w). destruct (body w) as [[a | e] w']; simpl in *.
  - exact Hb.
  - rewrite Hh. exact Hb.
Qed.

Lemma keeps_message_box : forall i title text, keeps_manager (message_box i title text).
Proof. intros i title text w. reflexivity. Qed.

Lemma keeps_np_random_normal : forall n, keeps_manager (np_random_normal n).
Proof. intros n w. reflexivity. Qed.

Ltac frame_step :=
  lazymatch goal with
  | |- keeps_manager (bind _ _) => apply keeps_bind; [ | intro ]
  | |- keeps_manager (ret _) => apply keeps_ret
  | |- keeps_manager (raise _) => apply keeps_raise
  | |- keeps_manager (lift _) => apply keeps_lift
  | |- keeps_manager (gets _) => apply keeps_gets
  | |- keeps_manager (attribute _) => apply keeps_attribute
  | |- keeps_manager (message_box _ _ _) => apply keeps_message_box
  | |- keeps_manager (np_random_normal _) => apply keeps_np_random_normal
  | |- keeps_manager (modify _) => apply keeps_modify; intro; reflexivity
  end.

Ltac frame := repeat frame_step.

Lemma keeps_plot : forall t a, keeps_manager (plot t a).
Proof. intros t a. unfold plot. frame. Qed.

Lemma keeps_stem_plot : forall t a, keeps_manager (stem_plot t a).
Proof. intros t a. unfold stem_plot. frame. Qed.

Lemma keeps_take_samples : forall t a f, keeps_manager (take_samples t a f).
Proof. intros t a f. unfold take_samples. frame. apply keeps_plot. Qed.

Lemma keeps_reconstruct : forall s a, keeps_manager (reconstruct s a).
Proof. intros s a. unfold reconstruct. frame. Qed.

Lemma keeps_start : forall a t, keeps_manager (start a t).
Proof.
  intros a t. unfold start.
  repeat lazymatch goal with
         | |- keeps_manager (take_samples _ _ _) => apply keeps_take_samples
         | |- keeps_manager (stem_plot _ _) => apply keeps_stem_plot
         | |- keeps_manager (plot _ _) => apply keeps_plot
         | |- keeps_manager (reconstruct _ _) => apply keeps_reconstruct
         | |- _ => frame_step
         end.
Qed.

Lemma keeps_get_combined_signal_with_noise :
  keeps_manager get_combined_signal_with_noise.
Proof.
  unfold get_combined_signal_with_noise. frame.
  match goal with |- keeps_manager (match ?l with _ => _ end) => destruct l end; frame.
Qed.

Lemma keeps_plot_signals : keeps_manager plot_signals.
Proof.
  unfold plot_signals. frame.
  match goal with |- keeps_manager (match ?l with _ => _ end) => destruct l end.
  - apply keeps_message_box.
  - apply keeps_bind; [ apply keeps_get_combined_signal_with_noise | intros [[t n] | ] ].
    + apply keeps_bind; [ frame | intro; apply keeps_start ].
    + apply keeps_ret.
Qed.

(** ** Indexing *)

Lemma getitem_in_range :
  forall l i, (0 <= i < len l)%Z -> getitem l i = Ok (nth (Z.to_nat i) l 0).
Proof.
  intros l i [H0 H1]. unfold getitem.
  apply Z.leb_le in H0. apply Z.ltb_lt in H1.
  rewrite H0, H1. reflexivity.
Qed.

Lemma getitem_empty : forall i, getitem [] i = Raise IndexError.
Proof.
  intro i. unfold getitem, len. simpl length. change (Z.of_nat 0) with 0%Z.
  destruct ((0 <=? i) && (i <? 0))%Z eqn:E.
  - apply andb_true_iff in E. destruct E as [E0 E1].
    apply Z.leb_le in E0. apply Z.ltb_lt in E1. lia.
  - change (- 0)%Z with 0%Z. rewrite E. reflexivity.
Qed.

Lemma getitem_first : forall x l, getitem (x :: l) 0 = Ok x.
Proof.
  intros x l. rewrite getitem_in_range; [ reflexivity | ].
  unfold len. simpl length. lia.
Qed.

Lemma getitem_last :
  forall x l, getitem (x :: l) (len (x :: l) - 1) = Ok (last (x :: l) 0).
Proof.
  intros x l. rewrite getitem_in_range.
  - f_equal. unfold len. simpl length.
    replace (Z.to_nat (Z.of_nat (S (length l)) - 1)) with (length l) by lia.
    clear. revert x. induction l as [| y l IH]; intro x; [ reflexivity | ].
    simpl length. change (last (x :: y :: l) 0) with (last (y :: l) 0).
    rewrite <- IH. reflexivity.
  - unfold len. simpl length. lia.
Qed.

(** ** The store is read, not written, when the signals are combined *)

(** C4: on an empty signal collection get_combined_signal_with_noise returns
    (None, None) and leaves the whole program state as it was: no array is
    built, no random value is drawn. *)
Theorem get_combined_empty :
  forall w, signals (signal_manager w) = [] ->
            get_combined_signal_with_noise w = (Ok None, w).
Proof.
  intros w H. unfold get_combined_signal_with_noise, bind, gets.
  rewrite H. reflexivity.
Qed.

(** C10: get_combined_signal_with_noise is read-only on the store: the
    collection, each stored signal's time and amplitude, the next identifier
    and the noise ratio are the same after the call, whatever it returns. *)
Theorem get_combined_read_only :
  forall w,
    let w' := snd (get_combined_signal_with_noise w) in
    signals (signal_manager w') = signals (signal_manager w)
    /\ map time (signals (signal_manager w')) = map time (signals (signal_manager w))
    /\ map amplitude (signals (signal_manager w'))
       = map amplitude (signals (signal_manager w))
    /\ next_signal_id (signal_manager w') = next_signal_id (signal_manager w)
    /\ snr (signal_manager w') = snr (signal_manager w).
Proof.
  intros w w'. subst w'.
  rewrite (keeps_get_combined_signal_with_noise w).
  repeat split; reflexivity.
Qed.

(** ** Sampling at frequency 0 *)

Lemma take_samples_zero_raises :
  forall w time amplitude,
    take_samples time amplitude 0 w
    = (Raise match time with
             | [] => IndexError
             | _ :: _ => ZeroDivisionError
             end, w).
Proof.
  intros w time amplitude. destruct time as [| t0 rest].
  - unfold take_samples, bind, lift. rewrite getitem_empty. reflexivity.
  - unfold take_samples, bind, lift.
    rewrite getitem_first, getitem_last. reflexivity.
Qed.

(** C6: take_samples with sampling frequency 0 raises and returns nothing,
    for every time and amplitude sequence: ZeroDivisionError from 1 / 0 when
    the time sequence has a first and a last value, IndexError from time[0]
    when it is empty.  Nothing has been stored by then. *)
Theorem take_samples_zero_frequency :
  forall w time amplitude,
    (exists e, fst (take_samples time amplitude 0 w) = Raise e)
    /\ snd (take_samples time amplitude 0 w) = w
    /\ (forall t0 rest, time = t0 :: rest ->
                        fst (take_samples time amplitude 0 w) = Raise ZeroDivisionError)
    /\ (time = [] -> fst (take_samples time amplitude 0 w) = Raise IndexError).
Proof.
  intros w time amplitude. rewrite take_samples_zero_raises. cbn [fst snd].
  split; [ eexists; reflexivity | ]. split; [ reflexivity | ]. split.
  - intros t0 rest ->. reflexivity.
  - intros ->. reflexivity.
Qed.

(** ** Input validation of add_signal_component *)

(** C8: when the frequency text or the amplitude text is not a number,
    add_signal_component opens the "Invalid Input" warning and changes nothing
    else: the signal collection, the next identifier and the noise ratio are
    those before the call. *)
Theorem add_signal_component_invalid_text :
  forall w frequency amplitude_value,
    py_float frequency = None \/ py_float amplitude_value = None ->
    let r := add_signal_component frequency amplitude_value w in
    r = (Ok tt,
         set_dialogs
           (dialogs w ++ [MessageBox Warning "Invalid Input"
                            "Please enter valid numbers for frequency and amplitude."])
           w)
    /\ signals (signal_manager (snd r)) = signals (signal_manager w)
    /\ next_signal_id (signal_manager (snd r)) = next_signal_id (signal_manager w)
    /\ snr (signal_manager (snd r)) = snr (signal_manager w).
Proof.
  intros w frequency amplitude_value H r.
  assert (Hr : r = (Ok tt,
                    set_dialogs
                      (dialogs w ++ [MessageBox Warning "Invalid Input"
                         "Please enter valid numbers for frequency and amplitude."])
                      w)).
  { subst r. unfold add_signal_component, try_except.
    destruct H as [H | H].
    - rewrite H. reflexivity.
    - rewrite H. destruct (py_float frequency); reflexivity. }
  rewrite Hr. repeat split; reflexivity.
Qed.

(** ** What the operations do to the store *)

Lemma try_except_manager :
  forall A (body : M A) (handler : exn -> M A) w,
    (forall e, keeps_manager (handler e)) ->
    signal_manager (snd (try_except body handler w)) = signal_manager (snd (body w)).
Proof.
  intros A body handler w Hh. unfold try_except.
  destruct (body w) as [[a | e] w']; simpl; [ reflexivity | apply Hh ].
Qed.

Lemma append_and_plot_manager :
  forall s w,
    signal_manager
      (snd ((modify_manager (append_signal s) ;;
             modify_manager incr_next_signal_id ;;
             plot_signals) w))
    = incr_next_signal_id (append_signal s (signal_manager w)).
Proof.
  intros s w. cbv beta iota delta [bind modify_manager modify].
  rewrite keeps_plot_signals. reflexivity.
Qed.

Lemma keeps_invalid_input_handler :
  forall e : exn,
    keeps_manager
      match e with
      | ValueError =>
          message_box Warning "Invalid Input"
            "Please enter valid numbers for frequency and amplitude."
      | _ => raise e
      end.
Proof. intros []; frame. Qed.

(** The signal that add_signal_component builds from the two numbers. *)
Lemma add_signal_component_manager :
  forall w ftext atext f A,
    py_float ftext = Some f -> py_float atext = Some A ->
    let m := signal_manager w in
    let t := match signals m with
             | first :: _ => time first
             | [] => np_linspace 0 (1000 / 1000) 1000
             end in
    signal_manager (snd (add_signal_component ftext atext w))
    = incr_next_signal_id
        (append_signal
           (mkSignal (map (fun x => A * np_sin (2 * np_pi * f * x)) t) t (Some f)
                     (next_signal_id m) "sinusoidal")
           m).
Proof.
  intros w ftext atext f A Hf HA m t. unfold add_signal_component.
  rewrite try_except_manager by apply keeps_invalid_input_handler.
  rewrite Hf, HA.
  unfold bind at 1. unfold gets at 1. cbv iota beta.
  unfold bind at 1. unfold gets at 1. cbv iota beta zeta.
  apply append_and_plot_manager.
Qed.

Lemma upload_file_manager :
  forall w file_path data,
    read_csv w file_path = inr data -> (2 <= shape1 data)%nat ->
    let m := signal_manager w in
    signal_manager (snd (upload_file file_path w))
    = incr_next_signal_id
        (append_signal
           (mkSignal (iloc_column data 1) (iloc_column data 0) None
                     (next_signal_id m) "UPLOADED")
           m).
Proof.
  intros w file_path data Hread Hcols m. unfold upload_file.
  rewrite try_except_manager by (intro; apply keeps_message_box).
  unfold bind at 1. unfold gets at 1. cbv iota beta.
  rewrite Hread.
  destruct (shape1 data <? 2)%nat eqn:E.
  - apply Nat.ltb_lt in E. lia.
  - unfold bind at 1. unfold gets at 1. cbv iota beta zeta.
    apply append_and_plot_manager.
Qed.

Lemma upload_file_cases :
  forall w file_path,
    signal_manager (snd (upload_file file_path w)) = signal_manager w
    \/ adds_one (signal_manager w) (signal_manager (snd (upload_file file_path w))).
Proof.
  intros w file_path.
  destruct (read_csv w file_path) as [e | data] eqn:Hread.
  - left. unfold upload_file.
    rewrite try_except_manager by (intro; apply keeps_message_box).
    unfold bind at 1. unfold gets at 1. cbv iota beta.
    rewrite Hread. reflexivity.
  - destruct (shape1 data <? 2)%nat eqn:E.
    + left. unfold upload_file.
      rewrite try_except_manager by (intro; apply keeps_message_box).
      unfold bind at 1. unfold gets at 1. cbv iota beta.
      rewrite Hread, E. reflexivity.
    + right. apply Nat.ltb_ge in E.
      rewrite (upload_file_manager w file_path Hread E).
      eexists. split; [ | reflexivity ]. reflexivity.
Qed.

Lemma add_signal_component_cases :
  forall w ftext atext,
    signal_manager (snd (add_signal_component ftext atext w)) = signal_manager w
    \/ adds_one (signal_manager w)
                (signal_manager (snd (add_signal_component ftext atext w))).
Proof.
  intros w ftext atext.
  destruct (py_float ftext) as [f |] eqn:Hf; [ destruct (py_float atext) as [A |] eqn:HA | ].
  - right. rewrite (add_signal_component_manager w ftext atext Hf HA).
    eexists. split; [ | reflexivity ]. reflexivity.
  - left. unfold add_signal_component.
    rewrite try_except_manager by apply keeps_invalid_input_handler.
    rewrite Hf, HA. reflexivity.
  - left. unfold add_signal_component.
    rewrite try_except_manager by apply keeps_invalid_input_handler.
    rewrite Hf. reflexivity.
Qed.

(** ** The default time base *)

Lemma np_linspace_length :
  forall start stop num, length (np_linspace start stop num) = num.
Proof.
  intros start stop [| [| div]]; try reflexivity.
  unfold np_linspace. rewrite length_app, length_map, length_seq.
  simpl length. lia.
Qed.

Lemma np_linspace_first :
  forall start stop num, (0 < num)%nat -> nth 0 (np_linspace start stop num) 0 == start.
Proof.
  intros start stop [| [| div]] H; [ lia | reflexivity | ].
  unfold np_linspace. cbn [seq map app nth]. cbn. ring.
Qed.

Lemma np_linspace_last :
  forall start stop div, nth (S div) (np_linspace start stop (S (S div))) 0 = stop.
Proof.
  intros start stop div. unfold np_linspace.
  rewrite app_nth2; rewrite length_map, length_seq; [ | lia ].
  rewrite Nat.sub_diag. reflexivity.
Qed.

Lemma nth_map_in_range :
  forall (g : Q -> Q) l i,
    (i < length l)%nat -> nth i (map g l) 0 = g (nth i l 0).
Proof.
  intros g l i H.
  rewrite (nth_indep (map g l) 0 (g 0)) by (rewrite length_map; exact H).
  apply map_nth.
Qed.

(** ** Adding a synthetic component *)

(** C3: with a frequency text that reads as f and an amplitude text that
    reads as A, add_signal_component appends one signal.  Its time base is
    that of the first stored signal, or, on an empty collection,
    np.linspace(0, 1, 1000): 1000 points from 0 to 1.  Its amplitude has one
    value per time point, amplitude[i] = A * sin(2 * pi * f * t[i]). *)
Theorem add_signal_component_appends :
  forall w ftext atext f A,
    py_float ftext = Some f -> py_float atext = Some A ->
    let m := signal_manager w in
    let m' := signal_manager (snd (add_signal_component ftext atext w)) in
    exists s,
      signals m' = signals m ++ [s]
      /\ (forall first rest, signals m = first :: rest -> time s = time first)
      /\ (signals m = [] ->
          time s = np_linspace 0 (1000 / 1000) 1000
          /\ length (time s) = 1000%nat
          /\ nth 0 (time s) 0 == 0
          /\ nth 999 (time s) 0 == 1)
      /\ length (amplitude s) = length (time s)
      /\ (forall i, (i < length (time s))%nat ->
                    nth i (amplitude s) 0 = A * np_sin (2 * np_pi * f * nth i (time s) 0))
      /\ frequency s = Some f
      /\ signal_id s = next_signal_id m
      /\ signal_type s = "sinusoidal"%string.
Proof.
  intros w ftext atext f A Hf HA m m'. subst m'.
  rewrite (add_signal_component_manager w ftext atext Hf HA). fold m.
  eexists. split; [ reflexivity | ]. cbn [time amplitude frequency signal_id signal_type].
  split; [ | split; [ | split; [ | split; [ | repeat split ] ] ] ].
  - intros first rest H. rewrite H. reflexivity.
  - intro H. rewrite H. split; [ reflexivity | split; [ | split ] ].
    + apply np_linspace_length.
    + apply np_linspace_first. lia.
    + rewrite (np_linspace_last 0 (1000 / 1000) 998). reflexivity.
  - apply length_map.
  - intros i Hi. apply nth_map_in_range. exact Hi.
Qed.

(** ** Loading a file *)

Lemma iloc_column_length :
  forall data j, df_wf data -> (j < shape1 data)%nat ->
                 length (iloc_column data j) = df_rows data.
Proof.
  intros data j Hwf Hj. unfold df_wf in Hwf. rewrite Forall_forall in Hwf.
  apply Hwf. unfold iloc_column. apply nth_In. exact Hj.
Qed.

(** C7: when the chosen file reads as a table of N rows and at least two
    columns, loading it appends exactly one signal, with the first column as
    time and the second as amplitude, both of length N, under the identifier
    that was next; the collection has one signal more. *)
Theorem upload_signal_appends_one :
  forall w file_path data N,
    read_csv w file_path = inr data ->
    df_wf data -> (2 <= shape1 data)%nat -> df_rows data = N ->
    let m := signal_manager w in
    let m' := signal_manager (snd (upload_signal [file_path] w)) in
    exists s,
      signals m' = signals m ++ [s]
      /\ time s = iloc_column data 0
      /\ amplitude s = iloc_column data 1
      /\ length (time s) = N
      /\ length (amplitude s) = N
      /\ signal_id s = next_signal_id m
      /\ signal_type s = "UPLOADED"%string
      /\ length (signals m') = S (length (signals m))
      /\ next_signal_id m' = (next_signal_id m + 1)%Z.
Proof.
  intros w file_path data N Hread Hwf Hcols HN m m'.
  assert (Hm' : m' = signal_manager (snd (upload_file file_path w))).
  { subst m'. unfold upload_signal. cbn [for_each]. unfold bind.
    destruct (upload_file file_path w) as [[[] | e] w1]; reflexivity. }
  rewrite Hm'. rewrite (upload_file_manager w file_path Hread Hcols). fold m.
  eexists. split; [ reflexivity | ]. cbn [time amplitude signal_id signal_type].
  repeat split.
  - rewrite <- HN. apply iloc_column_length; [ exact Hwf | lia ].
  - rewrite <- HN. apply iloc_column_length; [ exact Hwf | lia ].
  - cbn [incr_next_signal_id append_signal signals]. rewrite length_app. simpl. lia.
Qed.

(** ** The invariant of the store *)

Lemma store_inv_initial : store_inv initial_manager.
Proof. split; reflexivity. Qed.

Lemma sorted_of_nat_seq :
  forall n a, StronglySorted Z.lt (map Z.of_nat (seq a n)).
Proof.
  induction n as [| n IH]; intro a; cbn [seq map]; constructor.
  - apply IH.
  - apply Forall_forall. intros z Hz.
    apply in_map_iff in Hz. destruct Hz as [k [Hk Hin]].
    apply in_seq in Hin. lia.
Qed.

Lemma sorted_lt_nodup : forall l, StronglySorted Z.lt l -> NoDup l.
Proof.
  induction 1 as [| x l Hs IH Hall]; constructor; [ | exact IH ].
  intro Hin. rewrite Forall_forall in Hall. specialize (Hall x Hin). lia.
Qed.

Lemma store_inv_well_formed : forall m, store_inv m -> ids_well_formed m.
Proof.
  intros m [Hids Hnext]. unfold ids_well_formed.
  assert (Hs : StronglySorted Z.lt (ids m)) by (rewrite Hids; apply sorted_of_nat_seq).
  split; [ apply sorted_lt_nodup; exact Hs | ].
  split; [ exact Hs | ]. split.
  - intros s Hs0. unfold ids in Hids.
    destruct (signals m) as [| s0 rest]; [ discriminate | ].
    injection Hs0 as <-. cbn [map length seq] in Hids.
    injection Hids as H1 _. exact H1.
  - rewrite Hids, Hnext. apply Forall_forall. intros z Hz.
    apply in_map_iff in Hz. destruct Hz as [k [Hk Hin]].
    apply in_seq in Hin. unfold len. lia.
Qed.

Lemma store_inv_adds_one : forall m m', store_inv m -> adds_one m m' -> store_inv m'.
Proof.
  intros m m' [Hids Hnext] [s [Hid ->]]. unfold store_inv, ids, len in *.
  cbn [signals next_signal_id]. rewrite length_app. cbn [length].
  split.
  - rewrite map_app, Hids. cbn [map]. rewrite Hid, Hnext.
    replace (length (signals m) + 1)%nat with (S (length (signals m))) by lia.
    rewrite seq_S, map_app. cbn [map]. do 2 f_equal. lia.
  - rewrite Hnext. lia.
Qed.

Lemma append_only_refl : forall m, append_only m m.
Proof. intro m. exists []. symmetry. apply app_nil_r. Qed.

Lemma append_only_trans :
  forall m1 m2 m3, append_only m1 m2 -> append_only m2 m3 -> append_only m1 m3.
Proof.
  intros m1 m2 m3 [a1 H1] [a2 H2]. exists (a1 ++ a2).
  rewrite H2, H1. symmetry. apply app_assoc.
Qed.

Lemma store_step_same : forall m m', m' = m -> store_step m m'.
Proof.
  intros m m' ->. split; [ apply append_only_refl | ].
  intro H. split; [ exact H | apply store_inv_well_formed; exact H ].
Qed.

Lemma store_step_adds_one : forall m m', adds_one m m' -> store_step m m'.
Proof.
  intros m m' H. split.
  - destruct H as [s [_ ->]]. exists [s]. reflexivity.
  - intro Hinv. pose proof (store_inv_adds_one Hinv H) as H'.
    split; [ exact H' | apply store_inv_well_formed; exact H' ].
Qed.

Lemma store_step_trans :
  forall m1 m2 m3, store_step m1 m2 -> store_step m2 m3 -> store_step m1 m3.
Proof.
  intros m1 m2 m3 [Ha1 Hi1] [Ha2 Hi2]. split.
  - eapply append_only_trans; eassumption.
  - intro H. apply Hi2. apply Hi1. exact H.
Qed.

Lemma upload_signal_step :
  forall file_paths w,
    store_step (signal_manager w) (signal_manager (snd (upload_signal file_paths w))).
Proof.
  unfold upload_signal.
  induction file_paths as [| p rest IH]; intro w.
  - apply store_step_same. reflexivity.
  - cbn [for_each]. unfold bind.
    pose proof (upload_file_cases w p) as Hp.
    destruct (upload_file p w) as [[[] | e] w1]; cbn [snd] in *.
    + eapply store_step_trans; [ | apply IH ].
      destruct Hp as [Hp | Hp];
        [ apply store_step_same; exact Hp | apply store_step_adds_one; exact Hp ].
    + destruct Hp as [Hp | Hp];
        [ apply store_step_same; exact Hp | apply store_step_adds_one; exact Hp ].
Qed.

Lemma run_op_step :
  forall op w, store_step (signal_manager w) (signal_manager (run_op op w)).
Proof.
  intros [file_paths | ftext atext | snr_value | ] w; unfold run_op.
  - apply upload_signal_step.
  - destruct (add_signal_component_cases w ftext atext) as [H | H];
      [ apply store_step_same; exact H | apply store_step_adds_one; exact H ].
  - cbn. split.
    + exists []. cbn. symmetry. apply app_nil_r.
    + intro Hinv.
      assert (H : store_inv (mkSignalManager (signals (signal_manager w))
                                             (next_signal_id (signal_manager w)) snr_value))
        by exact Hinv.
      split; [ exact H | apply store_inv_well_formed; exact H ].
  - apply store_step_same. apply keeps_get_combined_signal_with_noise.
Qed.

(** C9: from a store whose identifiers are 1, 2, ..., n with n + 1 next (as
    at start-up), each of the four store operations leaves a store of that
    kind: the signals it held are all still there, unchanged and in place
    (new ones come after them), the identifiers are unique, strictly
    increasing in insertion order and start from 1, and the next identifier
    is above every stored one. *)
Theorem store_operations_preserve_invariant :
  forall w,
    store_inv (signal_manager w) ->
    let ok w' :=
      append_only (signal_manager w) (signal_manager w')
      /\ store_inv (signal_manager w')
      /\ ids_well_formed (signal_manager w') in
    (forall file_paths, ok (snd (upload_signal file_paths w)))
    /\ (forall frequency amplitude_value,
           ok (snd (add_signal_component frequency amplitude_value w)))
    /\ (forall snr_value, ok (snd (set_snr snr_value w)))
    /\ ok (snd (get_combined_signal_with_noise w)).
Proof.
  intros w Hinv ok.
  assert (Hstep : forall w', store_step (signal_manager w) (signal_manager w') -> ok w').
  { intros w' [Ha Hi]. destruct (Hi Hinv) as [H1 H2]. subst ok. cbv beta.
    split; [ exact Ha | split; [ exact H1 | exact H2 ] ]. }
  split; [ | split; [ | split ] ].
  - intro file_paths. apply Hstep. apply (run_op_step (Upload file_paths) w).
  - intros frequency amplitude_value. apply Hstep.
    apply (run_op_step (AddComponent frequency amplitude_value) w).
  - intro snr_value. apply Hstep. apply (run_op_step (SetSnr snr_value) w).
  - apply Hstep. apply (run_op_step GetCombined w).
Qed.

(** ** The combined signal and its noise *)

Lemma nth_add_combine :
  forall c a i,
    length a = length c -> (i < length c)%nat ->
    nth i (map (fun p => fst p + snd p) (combine c a)) 0 = nth i c 0 + nth i a 0.
Proof.
  induction c as [| x c IH]; intros a i Hlen Hi; [ cbn in Hi; lia | ].
  destruct a as [| y a]; [ discriminate | ].
  destruct i as [| i]; [ reflexivity | ].
  cbn [combine map nth]. apply IH; cbn in *; lia.
Qed.

Lemma length_add_combine :
  forall c a : list Q,
    length a = length c ->
    length (map (fun p => fst p + snd p) (combine c a)) = length c.
Proof.
  intros c a H. rewrite length_map, length_combine, H. apply Nat.min_id.
Qed.

Lemma iadd_same_length :
  forall c a, length a = length c ->
              iadd c a = Ok (map (fun p => fst p + snd p) (combine c a)).
Proof.
  intros c a H. unfold iadd. rewrite H, Nat.eqb_refl. reflexivity.
Qed.

Lemma pointwise_sum_cons :
  forall s l i, pointwise_sum (s :: l) i = nth i (amplitude s) 0 + pointwise_sum l i.
Proof. reflexivity. Qed.

Lemma sum_amplitudes_pointwise :
  forall l c,
    (forall s, In s l -> length (amplitude s) = length c) ->
    exists r,
      sum_amplitudes c l = Ok r
      /\ length r = length c
      /\ forall i, (i < length c)%nat -> nth i r 0 == nth i c 0 + pointwise_sum l i.
Proof.
  induction l as [| s l IH]; intros c Hlen.
  - exists c. split; [ reflexivity | split; [ reflexivity | ] ].
    intros i _. unfold pointwise_sum. cbn. ring.
  - assert (Hs : length (amplitude s) = length c) by (apply Hlen; left; reflexivity).
    cbn [sum_amplitudes]. rewrite (iadd_same_length _ _ Hs).
    destruct (IH (map (fun p => fst p + snd p) (combine c (amplitude s)))) as [r [Hr [Hl Hn]]].
    { intros s' Hin. rewrite length_add_combine by exact Hs.
      apply Hlen. right. exact Hin. }
    exists r. rewrite length_add_combine in Hl, Hn by exact Hs.
    split; [ exact Hr | split; [ exact Hl | ] ].
    intros i Hi. rewrite (Hn i Hi), (nth_add_combine _ _ Hs Hi), pointwise_sum_cons.
    ring.
Qed.




(** ** Sampling *)

Lemma np_arange_length :
  forall start stop step,
    length (np_arange start stop step)
    = Z.to_nat (Qceiling ((stop - start) / step)).
Proof.
  intros. unfold np_arange. rewrite length_map. apply length_seq.
Qed.

Lemma np_arange_nth :
  forall start stop step i,
    (i < length (np_arange start stop step))%nat ->
    nth i (np_arange start stop step) 0 = start + inject_Z (Z.of_nat i) * step.
Proof.
  intros start stop step i H. rewrite np_arange_length in H. unfold np_arange.
  rewrite (nth_indep _ 0 (start + inject_Z (Z.of_nat 0) * step))
    by (rewrite length_map, length_seq; exact H).
  rewrite (map_nth (fun i => start + inject_Z (Z.of_nat i) * step)).
  rewrite seq_nth by exact H. reflexivity.
Qed.

Lemma inject_Z_pos : forall f, (0 < f)%Z -> 0 < inject_Z f.
Proof. intros f H. change 0 with (inject_Z 0). rewrite <- Zlt_Qlt. exact H. Qed.

(** The quotient numpy takes the ceiling of, for the step 1 / f. *)
Lemma span_over_step :
  forall t0 tN f, (0 < f)%Z ->
    (tN - t0) / (inject_Z 1 / inject_Z f) == (tN - t0) * inject_Z f.
Proof.
  intros t0 tN f Hf. pose proof (inject_Z_pos Hf) as HF.
  change (inject_Z 1) with 1. field. lra.
Qed.

(** What take_samples leaves in self.samples. *)
Lemma take_samples_samples :
  forall w t0 rest amplitude f,
    f <> 0%Z ->
    samples (snd (take_samples (t0 :: rest) amplitude f w))
    = Some (np_arange t0 (last (t0 :: rest) 0) (inject_Z 1 / inject_Z f)).
Proof.
  intros w t0 rest amplitude f Hf.
  unfold take_samples, bind, lift.
  rewrite getitem_first, getitem_last. unfold py_truediv.
  destruct (f =? 0)%Z eqn:E; [ apply Z.eqb_eq in E; contradiction | ].
  cbn [modify attribute samples set_samples].
  destruct (np_interp _ _ _); reflexivity.
Qed.

(** With as many amplitudes as time points the call returns, and every sample
    instant has its interpolated amplitude. *)
Lemma take_samples_returns :
  forall w t0 rest amplitude f,
    f <> 0%Z -> length amplitude = length (t0 :: rest) ->
    let r := take_samples (t0 :: rest) amplitude f w in
    fst r = Ok tt
    /\ sampled_amplitude (snd r)
       = map (interp1 (t0 :: rest) amplitude)
             (np_arange t0 (last (t0 :: rest) 0) (inject_Z 1 / inject_Z f)).
Proof.
  intros w t0 rest amplitude f Hf Hlen.
  unfold take_samples, bind, lift.
  rewrite getitem_first, getitem_last. unfold py_truediv.
  destruct (f =? 0)%Z eqn:E; [ apply Z.eqb_eq in E; contradiction | ].
  cbn [modify attribute samples set_samples].
  unfold np_interp. rewrite Hlen, Nat.eqb_refl. split; reflexivity.
Qed.

Lemma ceiling_pos : forall x, 0 < x -> (0 < Qceiling x)%Z.
Proof.
  intros x H. pose proof (Qle_ceiling x) as Hc.
  rewrite Zlt_Qlt. change (inject_Z 0) with 0. lra.
Qed.


(** What take_samples stores and returns, for the proofs below. *)
Lemma take_samples_uniform_facts :
  forall w time amplitude f t0 tN,
    hd_error time = Some t0 -> last time 0 = tN -> t0 < tN -> (0 < f)%Z ->
    length amplitude = length time ->
    let r := take_samples time amplitude f w in
    exists s,
      samples (snd r) = Some s
      /\ length s = Z.to_nat (Qceiling ((tN - t0) * inject_Z f))
      /\ fst r = Ok tt
      /\ length (sampled_amplitude (snd r)) = length s.
Proof.
  intros w time amplitude f t0 tN Hhd Hlast Hlt Hf Hlen r.
  destruct time as [| x rest]; [ discriminate | ].
  injection Hhd as ->. subst r.
  assert (Hf0 : f <> 0%Z) by lia.
  rewrite (take_samples_samples w t0 rest amplitude Hf0), Hlast.
  destruct (@take_samples_returns w t0 rest amplitude f Hf0 Hlen) as [Hret Hsa].
  eexists. split; [ reflexivity | ]. split.
  - rewrite np_arange_length.
    rewrite (Qceiling_comp _ _ (span_over_step t0 tN Hf)). reflexivity.
  - split; [ exact Hret | ].
    rewrite Hsa, Hlast, length_map. reflexivity.
Qed.


(** ** Reconstruction *)

Lemma scipy_signal_resample_lengths :
  forall x num t,
    x <> [] -> (2 <= length t)%nat ->
    exists y new_t,
      scipy_signal_resample x num t = Ok (y, new_t)
      /\ length y = num /\ length new_t = num.
Proof.
  intros x num t Hx Ht. unfold scipy_signal_resample.
  destruct x as [| x0 x']; [ contradiction Hx; reflexivity | ].
  rewrite (@getitem_in_range t 1%Z) by (unfold len; lia).
  rewrite (@getitem_in_range t 0%Z) by (unfold len; lia).
  eexists. eexists. split; [ reflexivity | ]. split.
  - apply fft_resample_length. discriminate.
  - rewrite length_map. apply length_seq.
Qed.

(** C5, for the inputs on which scipy's resample returns: from at least two
    sample instants and a non-empty amplitude sequence, reconstruct shows one
    curve, whose time and amplitude series have exactly 5000 points each,
    however many samples came in. *)
Theorem reconstruct_5000_points :
  forall w samples sampled_amplitude,
    (2 <= length samples)%nat -> sampled_amplitude <> [] ->
    let r := reconstruct samples sampled_amplitude w in
    exists reconstructed_time reconstructed_amplitude,
      fst r = Ok tt
      /\ reconstruction_viewer (snd r) = [(reconstructed_time, reconstructed_amplitude)]
      /\ length reconstructed_time = 5000%nat
      /\ length reconstructed_amplitude = 5000%nat.
Proof.
  intros w samples sampled_amplitude Hs Ha r.
  destruct (@scipy_signal_resample_lengths sampled_amplitude 5000 samples Ha Hs) as [y [new_t [Hr [Hy Ht]]]].
  exists new_t, y. subst r.
  unfold reconstruct, bind, modify, lift. rewrite Hr.
  cbn [fst snd reconstruction_viewer set_reconstruction_viewer app].
  repeat split; assumption.
Qed.

(** ** A span of at most one sampling period *)

Lemma get_combined_run :
  forall w first rest,
    signals (signal_manager w) = first :: rest ->
    (forall s, In s (first :: rest) -> length (amplitude s) = length (time first)) ->
    exists noisy,
      get_combined_signal_with_noise w
      = (Ok (Some (time first, noisy)),
         set_random_state (fun i => random_state w (length (time first) + i)%nat) w)
      /\ length noisy = length (time first).
Proof.
  intros w first rest Hsig Hlen.
  destruct (sum_amplitudes_pointwise (first :: rest) (np_zeros_like (time first)))
    as [combined [Hsum [Hl _]]].
  { intros s Hin. unfold np_zeros_like. rewrite length_map. apply Hlen. exact Hin. }
  unfold np_zeros_like in Hl. rewrite length_map in Hl.
  eexists. split.
  - unfold get_combined_signal_with_noise.
    unfold bind at 1. unfold gets at 1. cbv iota beta. rewrite Hsig.
    cbv zeta. unfold bind at 1. unfold lift at 1. rewrite Hsum. cbv iota beta.
    unfold bind, gets, np_random_normal, ret. rewrite Hl. reflexivity.
  - rewrite length_add_combine; [ exact Hl | ].
    rewrite !length_map, length_seq. symmetry. exact Hl.
Qed.

Lemma scipy_signal_resample_one_instant :
  forall x num t,
    x <> [] -> (length t < 2)%nat -> scipy_signal_resample x num t = Raise IndexError.
Proof.
  intros x num t Hx Ht. unfold scipy_signal_resample.
  destruct x as [| x0 x']; [ contradiction Hx; reflexivity | ].
  unfold getitem at 1.
  destruct ((0 <=? 1) && (1 <? len t))%Z eqn:E1.
  - apply andb_true_iff in E1. destruct E1 as [_ E1].
    apply Z.ltb_lt in E1. unfold len in E1. lia.
  - destruct ((- len t <=? 1) && (1 <? 0))%Z eqn:E2; [ | reflexivity ].
    apply andb_true_iff in E2. destruct E2 as [_ E2]. discriminate.
Qed.

Lemma reconstruct_one_instant :
  forall w s a,
    a <> [] -> (length s < 2)%nat -> fst (reconstruct s a w) = Raise IndexError.
Proof.
  intros w s a Ha Hs. unfold reconstruct, bind, modify, lift.
  rewrite (@scipy_signal_resample_one_instant a 5000 s Ha Hs). reflexivity.
Qed.

Lemma ceiling_one : forall x, 0 < x -> x <= 1 -> Qceiling x = 1%Z.
Proof.
  intros x H0 H1. pose proof (ceiling_pos H0) as Hc.
  pose proof (Qceiling_resp_le x 1 H1) as Hd.
  change (Qceiling 1) with 1%Z in Hd. lia.
Qed.

(** GUI.start on a signal whose time span holds at most one sampling period:
    one sample is taken, and reconstruct, called with it, raises IndexError. *)
Lemma start_one_sample :
  forall w amplitude time t0 tN,
    hd_error time = Some t0 -> last time 0 = tN -> t0 < tN ->
    (0 < sampling_frequency w)%Z ->
    (tN - t0) * inject_Z (sampling_frequency w) <= 1 ->
    length amplitude = length time ->
    fst (start amplitude time w) = Raise IndexError.
Proof.
  intros w amplitude time t0 tN Hhd Hlast Hlt Hf Hspan Hlen.
  set (w1 := set_gui_amplitude amplitude (set_gui_time time w)).
  destruct (@take_samples_uniform_facts w1 time amplitude (sampling_frequency w) t0 tN
              Hhd Hlast Hlt Hf)
    as [s [Hs [Hcount [Hret Hla]]]]; [ exact Hlen | ].
  assert (H1 : length s = 1%nat).
  { rewrite Hcount, ceiling_one; [ reflexivity | | exact Hspan ].
    apply Qmult_lt_0_compat; [ lra | apply inject_Z_pos; exact Hf ]. }
  unfold start.
  unfold bind at 1. unfold modify at 1. cbv iota beta.
  unfold bind at 1. unfold modify at 1. cbv iota beta.
  unfold bind at 1. unfold gets at 1. cbv iota beta.
  unfold bind at 1. unfold gets at 1. cbv iota beta.
  unfold bind at 1. unfold gets at 1. cbv iota beta.
  cbn [gui_time gui_amplitude sampling_frequency set_gui_time set_gui_amplitude].
  fold w1. unfold bind at 1.
  destruct (take_samples time amplitude (sampling_frequency w) w1) as [[[] | e] w2];
    cbn [fst snd] in *; [ | discriminate ].
  unfold bind, attribute, stem_plot, plot, modify, gets.
  repeat first
    [ rewrite Hs
    | progress cbn [samples sampled_amplitude set_sampled_items set_original_plot] ].
  apply reconstruct_one_instant.
  - intro E. rewrite E in Hla. cbn in Hla. lia.
  - lia.
Qed.

Lemma plot_signals_one_sample :
  forall w first rest t0 tN,
    signals (signal_manager w) = first :: rest ->
    (forall s, In s (first :: rest) -> length (amplitude s) = length (time first)) ->
    hd_error (time first) = Some t0 -> last (time first) 0 = tN -> t0 < tN ->
    (0 < sampling_frequency w)%Z ->
    (tN - t0) * inject_Z (sampling_frequency w) <= 1 ->
    fst (plot_signals w) = Raise IndexError.
Proof.
  intros w first rest t0 tN Hsig Hlen Hhd Hlast Hlt Hf Hspan.
  destruct (get_combined_run w Hsig Hlen) as [noisy [Hrun Hn]].
  unfold plot_signals.
  unfold bind at 1. unfold gets at 1. cbv iota beta. rewrite Hsig.
  unfold bind at 1. rewrite Hrun. cbv iota beta.
  unfold bind at 1. unfold modify at 1. cbv iota beta.
  apply (@start_one_sample _ noisy (time first) t0 tN Hhd Hlast Hlt); [ exact Hf | exact Hspan | exact Hn ].
Qed.

Lemma np_linspace_hd :
  forall start stop div,
    hd_error (np_linspace start stop (S (S div)))
    = Some (start + inject_Z (Z.of_nat 0)
                    * ((stop - start) / inject_Z (Z.of_nat (S div)))).
Proof. intros. unfold np_linspace. cbn [seq map app hd_error]. reflexivity. Qed.

Lemma np_linspace_last_value :
  forall start stop div, last (np_linspace start stop (S (S div))) 0 = stop.
Proof. intros. unfold np_linspace. apply last_last. Qed.

(** X1: at start-up the sampling frequency is 1, and the default time base of the
    first synthetic component spans exactly one second: one sample is taken,
    reconstruct raises IndexError in the plot callback, and
    add_signal_component, which handles ValueError only, lets it through.
    The component has been stored by then. *)
Theorem first_component_at_startup_raises :
  forall draws files ftext atext f A,
    py_float ftext = Some f -> py_float atext = Some A ->
    let r := add_signal_component ftext atext (initial_app draws files) in
    fst r = Raise IndexError
    /\ length (signals (signal_manager (snd r))) = 1%nat
    /\ next_signal_id (signal_manager (snd r)) = 2%Z.
Proof.
  intros draws files ftext atext f A Hf HA r.
  assert (Hm := @add_signal_component_manager (initial_app draws files)
                  ftext atext f A Hf HA).
  cbv zeta in Hm. fold r in Hm. split; [ | rewrite Hm; split; reflexivity ].
  subst r. unfold add_signal_component, try_except. rewrite Hf, HA.
  unfold bind at 1. unfold gets at 1. cbv iota beta.
  unfold bind at 1. unfold gets at 1. cbv iota beta zeta.
  unfold bind at 1. unfold modify_manager at 1. unfold modify at 1. cbv iota beta.
  unfold bind at 1. unfold modify_manager at 1. unfold modify at 1. cbv iota beta.
  match goal with
  | |- fst (match plot_signals ?w1 with _ => _ end) = _ =>
      assert (Hp : fst (plot_signals w1) = Raise IndexError);
      [ | destruct (plot_signals w1) as [[[] | e] w2]; cbn [fst] in Hp;
          [ discriminate | injection Hp as ->; reflexivity ] ]
  end.
  eapply plot_signals_one_sample.
  - reflexivity.
  - intros s [<- | []]. cbn [amplitude time]. apply length_map.
  - cbn [time]. apply (np_linspace_hd 0 (1000 / 1000) 998).
  - cbn [time]. apply (np_linspace_last_value 0 (1000 / 1000) 998).
  - unfold Qlt. vm_compute. reflexivity.
  - reflexivity.
  - unfold Qle. vm_compute. discriminate.
Qed.

(** X2: GUI.update_stem_plot with the slider at 0: take_samples raises, the bare
    except opens the "Upload Signal first" box and the call returns; only the
    sampling frequency has changed. *)
Theorem update_stem_plot_zero :
  forall w,
    let r := update_stem_plot 0 w in
    fst r = Ok tt
    /\ dialogs (snd r)
       = dialogs w ++ [MessageBox Information "Upload Error !" "Upload Signal first"]
    /\ sampling_frequency (snd r) = 0%Z
    /\ samples (snd r) = samples w
    /\ sampled_amplitude (snd r) = sampled_amplitude w
    /\ signal_manager (snd r) = signal_manager w.
Proof.
  intros w r.
  assert (Hr : r = (Ok tt,
                    set_dialogs
                      (dialogs w ++ [MessageBox Information "Upload Error !"
                                       "Upload Signal first"])
                      (set_sampling_frequency 0 w))).
  { subst r. unfold update_stem_plot.
    unfold bind at 1. unfold modify at 1. cbv iota beta.
    unfold try_except.
    unfold bind at 1. unfold gets at 1. cbv iota beta.
    unfold bind at 1. unfold gets at 1. cbv iota beta.
    unfold bind at 1. unfold gets at 1. cbv iota beta.
    unfold bind at 1.
    cbn [gui_time gui_amplitude sampling_frequency set_sampling_frequency].
    rewrite take_samples_zero_raises. reflexivity. }
  rewrite Hr. repeat split.
Qed.

(** ** The store over a whole session *)

(** X3: whatever store operations a session runs from start-up, in whatever
    order, the identifiers in the store are 1, 2, ..., n in insertion order,
    unique and increasing, and the next identifier is n + 1. *)
Theorem session_keeps_store_invariant :
  forall ops draws files,
    let m := signal_manager (run_ops ops (initial_app draws files)) in
    store_inv m /\ ids_well_formed m.
Proof.
  intros ops draws files.
  assert (H : forall w, store_inv (signal_manager w) ->
                        store_inv (signal_manager (run_ops ops w))).
  { induction ops as [| op ops IH]; intros w Hw; [ exact Hw | ].
    cbn [run_ops]. apply IH.
    destruct (run_op_step op w) as [_ Hstep]. apply Hstep. exact Hw. }
  cbv zeta. specialize (H (initial_app draws files) store_inv_initial).
  split; [ exact H | apply store_inv_well_formed; exact H ].
Qed.

(** ** Running a method step by step *)

Lemma bind_run :
  forall A B (m : M A) (k : A -> M B) w a w',
    m w = (Ok a, w') -> bind m k w = k a w'.
Proof. intros A B m k w a w' H. unfold bind. rewrite H. reflexivity. Qed.

Lemma bind_raise :
  forall A B (m : M A) (k : A -> M B) w e w',
    m w = (Raise e, w') -> bind m k w = (Raise e, w').
Proof. intros A B m k w e w' H. unfold bind. rewrite H. reflexivity. Qed.

(** ** Parts of the state a method leaves alone *)

Lemma keeps_ret_any : forall A B (proj : App -> B) (a : A), keeps proj (ret a).
Proof. intros A B proj a w. reflexivity. Qed.

Lemma keeps_raise_any : forall A B (proj : App -> B) (e : exn), keeps proj (@raise A e).
Proof. intros A B proj e w. reflexivity. Qed.

Lemma keeps_lift_any : forall A B (proj : App -> B) (r : result A), keeps proj (lift r).
Proof. intros A B proj r w. reflexivity. Qed.

Lemma keeps_gets_any : forall A B (proj : App -> B) (f : App -> A), keeps proj (gets f).
Proof. intros A B proj f w. reflexivity. Qed.

Lemma keeps_attribute_any :
  forall A B (proj : App -> B) (f : App -> option A), keeps proj (attribute f).
Proof. intros A B proj f w. unfold attribute. destruct (f w); reflexivity. Qed.

Lemma keeps_modify_any :
  forall B (proj : App -> B) f,
    (forall w, proj (f w) = proj w) -> keeps proj (modify f).
Proof. intros B proj f H w. apply H. Qed.

Lemma keeps_np_random_normal_any :
  forall B (proj : App -> B) n,
    (forall g w, proj (set_random_state g w) = proj w) ->
    keeps proj (np_random_normal n).
Proof. intros B proj n H w. apply H. Qed.

Lemma keeps_bind_any :
  forall A B C (proj : App -> C) (m : M A) (k : A -> M B),
    keeps proj m -> (forall a, keeps proj (k a)) -> keeps proj (bind m k).
Proof.
  intros A B C proj m k Hm Hk w. unfold bind.
  specialize (Hm w). destruct (m w) as [[a | e] w']; cbn [snd] in *.
  - rewrite Hk. exact Hm.
  - exact Hm.
Qed.

Lemma keeps_try_except_any :
  forall A C (proj : App -> C) (body : M A) (handler : exn -> M A),
    keeps proj body -> (forall e, keeps proj (handler e)) ->
    keeps proj (try_except body handler).
Proof.
  intros A C proj body handler Hb Hh w. unfold try_except.
  specialize (Hb w). destruct (body w) as [[a | e] w']; cbn [snd] in *.
  - exact Hb.
  - rewrite Hh. exact Hb.
Qed.

Lemma keeps_for_each_any :
  forall A C (proj : App -> C) (l : list A) (body : A -> M unit),
    (forall x, keeps proj (body x)) -> keeps proj (for_each l body).
Proof.
  intros A C proj l body H. induction l as [| x l IH]; cbn [for_each].
  - apply keeps_ret_any.
  - apply keeps_bind_any; [ apply H | intro; exact IH ].
Qed.

(** Walks through the methods of the GUI and of the SignalManager; it stops at
    the first update that writes the part in question. *)
Ltac keep :=
  repeat lazymatch goal with
    | |- keeps _ (bind _ _) => apply keeps_bind_any; [ | intro ]
    | |- keeps _ (ret _) => apply keeps_ret_any
    | |- keeps _ (raise _) => apply keeps_raise_any
    | |- keeps _ (lift _) => apply keeps_lift_any
    | |- keeps _ (gets _) => apply keeps_gets_any
    | |- keeps _ (attribute _) => apply keeps_attribute_any
    | |- keeps _ (modify _) => apply keeps_modify_any; intro; reflexivity
    | |- keeps _ (np_random_normal _) =>
        apply keeps_np_random_normal_any; intros; reflexivity
    | |- keeps _ (try_except _ _) => apply keeps_try_except_any; [ | intro ]
    | |- keeps _ (for_each _ _) => apply keeps_for_each_any; intro
    | |- keeps _ (match ?x with _ => _ end) => destruct x
    | |- keeps _ (message_box _ _ _) => unfold message_box
    | |- keeps _ (modify_manager _) => unfold modify_manager
    | |- keeps _ (set_snr _) => unfold set_snr
    | |- keeps _ (plot _ _) => unfold plot
    | |- keeps _ (stem_plot _ _) => unfold stem_plot
    | |- keeps _ (take_samples _ _ _) => unfold take_samples
    | |- keeps _ (reconstruct _ _) => unfold reconstruct
    | |- keeps _ (start _ _) => unfold start
    | |- keeps _ get_combined_signal_with_noise => unfold get_combined_signal_with_noise
    | |- keeps _ plot_signals => unfold plot_signals
    | |- keeps _ (upload_file _) => unfold upload_file
    | |- keeps _ (upload_signal _) => unfold upload_signal
    | |- keeps _ (add_signal_component _ _) => unfold add_signal_component
    | |- keeps _ (update_plot_with_noise _) => unfold update_plot_with_noise
    end.

(** No method writes a file: the table a path reads as is the same
    throughout a session. *)
Lemma keeps_read_csv_upload_file : forall p, keeps read_csv (upload_file p).
Proof. intro p. keep. Qed.

Lemma keeps_read_csv_run_op : forall op w, read_csv (run_op op w) = read_csv w.
Proof.
  intros [file_paths | ftext atext | snr_value | ] w; unfold run_op.
  - assert (H : keeps read_csv (upload_signal file_paths)) by keep. apply H.
  - assert (H : keeps read_csv (add_signal_component ftext atext)) by keep. apply H.
  - assert (H : keeps read_csv (set_snr snr_value)) by keep. apply H.
  - assert (H : keeps read_csv get_combined_signal_with_noise) by keep. apply H.
Qed.

(** The plot callback opens a message box only on an empty store. *)
Lemma keeps_dialogs_start : forall a t, keeps dialogs (start a t).
Proof. intros a t. keep. Qed.

Lemma keeps_dialogs_get_combined : keeps dialogs get_combined_signal_with_noise.
Proof. keep. Qed.

Lemma plot_signals_dialogs :
  forall w, signals (signal_manager w) <> [] ->
            dialogs (snd (plot_signals w)) = dialogs w.
Proof.
  intros w H. unfold plot_signals.
  erewrite bind_run by reflexivity.
  destruct (signals (signal_manager w)) as [| first rest]; [ contradiction H; reflexivity | ].
  assert (K : keeps dialogs
                (r <- get_combined_signal_with_noise ;;
                 match r with
                 | None => ret tt
                 | Some (time, noisy_signal) =>
                     modify (set_noisy_plot (time, noisy_signal)) ;;
                     start noisy_signal time
                 end)%py) by keep.
  apply K.
Qed.

(** ** Handlers that catch everything *)

Lemma never_raises_try_except :
  forall A (body : M A) (handler : exn -> M A),
    (forall e, never_raises (handler e)) -> never_raises (try_except body handler).
Proof.
  intros A body handler Hh w. unfold try_except.
  destruct (body w) as [[a | e] w'].
  - exists a. reflexivity.
  - apply Hh.
Qed.

Lemma never_raises_message_box :
  forall i title text, never_raises (message_box i title text).
Proof. intros i title text w. exists tt. reflexivity. Qed.

Lemma never_raises_for_each :
  forall A (l : list A) (body : A -> M unit),
    (forall x, never_raises (body x)) -> never_raises (for_each l body).
Proof.
  intros A l body H. induction l as [| x l IH]; intro w; cbn [for_each].
  - exists tt. reflexivity.
  - unfold bind. destruct (H x w) as [[] Hx].
    destruct (body x w) as [[[] | e] w1]; cbn [fst] in Hx; [ apply IH | discriminate ].
Qed.

(** X4: upload_signal returns normally for every selection of files and from
    every state: whatever goes wrong with a file, in reading it or in the
    plot callback, is caught and shown in a message box. *)
Theorem upload_signal_never_raises :
  forall file_paths w, fst (upload_signal file_paths w) = Ok tt.
Proof.
  intros file_paths w.
  assert (H : never_raises (upload_signal file_paths)).
  { unfold upload_signal. apply never_raises_for_each. intro p.
    unfold upload_file. apply never_raises_try_except. intro e.
    apply never_raises_message_box. }
  destruct (H w) as [[] Hw]. exact Hw.
Qed.

(** X5: update_stem_plot returns normally for every slider value and from
    every state (its bare except catches everything), and it leaves the store
    alone. *)
Theorem update_stem_plot_never_raises :
  forall slider_value w,
    fst (update_stem_plot slider_value w) = Ok tt
    /\ signal_manager (snd (update_stem_plot slider_value w)) = signal_manager w
    /\ sampling_frequency (snd (update_stem_plot slider_value w)) = slider_value.
Proof.
  intros slider_value w. unfold update_stem_plot.
  erewrite bind_run by reflexivity.
  match goal with
  | |- context [try_except ?b ?h] =>
      assert (Hn : never_raises (try_except b h))
        by (apply never_raises_try_except; intro; apply never_raises_message_box);
      assert (Hm : keeps signal_manager (try_except b h)) by keep;
      assert (Hf : keeps sampling_frequency (try_except b h)) by keep
  end.
  split; [ | split ].
  - destruct (Hn (set_sampling_frequency slider_value w)) as [[] H]. exact H.
  - rewrite Hm. reflexivity.
  - rewrite Hf. reflexivity.
Qed.

(** ** The methods on the inputs they are made for *)

Lemma get_combined_exact :
  forall w first rest combined,
    signals (signal_manager w) = first :: rest ->
    sum_amplitudes (np_zeros_like (time first)) (first :: rest) = Ok combined ->
    get_combined_signal_with_noise w
    = (Ok (Some (time first,
                 noisy_of combined (snr (signal_manager w))
                          (next_draws w (length combined)))),
       set_random_state (fun i => random_state w (length combined + i)%nat) w).
Proof.
  intros w first rest combined Hsig Hsum.
  unfold get_combined_signal_with_noise.
  erewrite bind_run by reflexivity. cbv beta. rewrite Hsig. cbv zeta.
  erewrite bind_run by (unfold lift; rewrite Hsum; reflexivity).
  reflexivity.
Qed.

Lemma get_combined_empty_run :
  forall w, signals (signal_manager w) = [] ->
            get_combined_signal_with_noise w = (Ok None, w).
Proof.
  intros w H. unfold get_combined_signal_with_noise, bind, gets.
  rewrite H. reflexivity.
Qed.




Lemma take_samples_run :
  forall w time amplitude f t0,
    hd_error time = Some t0 -> f <> 0%Z -> length amplitude = length time ->
    take_samples time amplitude f w
    = (Ok tt,
       set_original_plot (gui_time w, gui_amplitude w)
         (set_sampled_amplitude (sample_values time amplitude f)
            (set_samples (sample_instants time f) w))).
Proof.
  intros w time amplitude f t0 Hhd Hf Hlen.
  destruct time as [| x rest]; [ discriminate | ]. injection Hhd as ->.
  unfold take_samples.
  erewrite bind_run by (unfold lift; rewrite getitem_first; reflexivity).
  erewrite bind_run by (unfold lift; rewrite getitem_last; reflexivity).
  erewrite bind_run.
  2: { unfold lift, py_truediv.
       destruct (f =? 0)%Z eqn:E; [ apply Z.eqb_eq in E; contradiction | reflexivity ]. }
  erewrite bind_run by reflexivity.
  erewrite bind_run by reflexivity.
  erewrite bind_run.
  2: { unfold lift, np_interp. rewrite Hlen, Nat.eqb_refl. reflexivity. }
  erewrite bind_run by reflexivity.
  erewrite bind_run by reflexivity.
  erewrite bind_run by reflexivity.
  reflexivity.
Qed.

Lemma sample_instants_length :
  forall time f t0 tN,
    hd_error time = Some t0 -> last time 0 = tN -> (0 < f)%Z ->
    length (sample_instants time f) = Z.to_nat (Qceiling ((tN - t0) * inject_Z f)).
Proof.
  intros time f t0 tN Hhd Hlast Hf. unfold sample_instants.
  destruct time as [| x rest]; [ discriminate | ]. injection Hhd as ->.
  cbn [hd]. rewrite Hlast, np_arange_length.
  rewrite (Qceiling_comp _ _ (span_over_step t0 tN Hf)). reflexivity.
Qed.









(** ** Files that are turned down *)

Lemma upload_signal_one :
  forall p w, upload_signal [p] w = upload_file p w.
Proof.
  intros p w. unfold upload_signal. cbn [for_each]. unfold bind.
  destruct (upload_file p w) as [[[] | e] w1]; reflexivity.
Qed.

(** X8: a file that cannot be read and a file of fewer than two columns are
    each answered with one message box naming the file (critical for the
    first, a warning for the second), and nothing else changes: no signal is
    stored, no identifier is used up. *)
Theorem upload_signal_rejects :
  forall w file_path,
    (forall e, read_csv w file_path = inl e ->
               upload_signal [file_path] w
               = (Ok tt,
                  set_dialogs
                    (dialogs w ++ [MessageBox Critical "Error"
                                     ("Failed to load signal '" ++ file_path ++ "'")])
                    w))
    /\ (forall data, read_csv w file_path = inr data -> (shape1 data < 2)%nat ->
                     upload_signal [file_path] w
                     = (Ok tt,
                        set_dialogs
                          (dialogs w ++ [MessageBox Warning "Invalid Data"
                                           ("CSV file '" ++ file_path
                                            ++ "' must contain at least two columns: time and amplitude.")])
                          w)).
Proof.
  intros w file_path. split.
  - intros e H. rewrite upload_signal_one. unfold upload_file, try_except.
    erewrite bind_run by reflexivity. cbv beta. rewrite H. reflexivity.
  - intros data H Hc. rewrite upload_signal_one. unfold upload_file, try_except.
    erewrite bind_run by reflexivity. cbv beta. rewrite H.
    apply Nat.ltb_lt in Hc. rewrite Hc. reflexivity.
Qed.

(** ** Loading several files *)

Lemma upload_file_returns : forall p w, fst (upload_file p w) = Ok tt.
Proof.
  intros p w.
  assert (H : never_raises (upload_file p)).
  { unfold upload_file. apply never_raises_try_except. intro e.
    apply never_raises_message_box. }
  destruct (H w) as [[] Hw]. exact Hw.
Qed.

Lemma upload_file_rejected_manager :
  forall w p,
    match read_csv w p with
    | inl _ => True
    | inr data => (shape1 data < 2)%nat
    end ->
    signal_manager (snd (upload_file p w)) = signal_manager w.
Proof.
  intros w p H. unfold upload_file.
  rewrite try_except_manager by (intro; apply keeps_message_box).
  erewrite bind_run by reflexivity. cbv beta.
  destruct (read_csv w p) as [e | data]; [ reflexivity | ].
  apply Nat.ltb_lt in H. rewrite H. reflexivity.
Qed.

Lemma upload_signal_manager :
  forall file_paths w,
    let m := signal_manager w in
    let added := uploaded_signals (read_csv w) file_paths (next_signal_id m) in
    signal_manager (snd (upload_signal file_paths w))
    = mkSignalManager (signals m ++ added) (next_signal_id m + len added) (snr m).
Proof.
  unfold upload_signal.
  induction file_paths as [| p rest IH]; intro w; cbv zeta.
  - cbn [for_each uploaded_signals]. unfold ret, len. cbn [snd length].
    rewrite app_nil_r, Z.add_0_r. destruct (signal_manager w); reflexivity.
  - cbn [for_each]. unfold bind.
    pose proof (upload_file_returns p w) as Hret.
    pose proof (keeps_read_csv_upload_file p w) as Hcsv.
    destruct (upload_file p w) as [[[] | e] w1] eqn:Hp; cbn [fst snd] in *;
      [ | discriminate ].
    assert (Hw1 : w1 = snd (upload_file p w)) by (rewrite Hp; reflexivity).
    specialize (IH w1). cbv zeta in IH. rewrite IH, Hcsv.
    cbn [uploaded_signals].
    destruct (read_csv w p) as [e | data] eqn:Hread.
    + rewrite Hw1, (upload_file_rejected_manager w p) by (rewrite Hread; exact I).
      reflexivity.
    + destruct (shape1 data <? 2)%nat eqn:E.
      * apply Nat.ltb_lt in E.
        rewrite Hw1, (upload_file_rejected_manager w p) by (rewrite Hread; exact E).
        reflexivity.
      * apply Nat.ltb_ge in E.
        rewrite Hw1, (@upload_file_manager w p data Hread E).
        cbn [incr_next_signal_id append_signal signals next_signal_id snr].
        unfold len. cbn [length]. rewrite <- app_assoc. cbn [app].
        f_equal. lia.
Qed.

(** X9: loading a selection of files appends, in the order chosen, one signal
    for each file that reads as a table of at least two columns, with
    consecutive identifiers from the next one on; unreadable files and files
    of fewer than two columns add nothing and do not stop the files after
    them.  The noise ratio is untouched. *)
Theorem upload_signal_batch :
  forall file_paths w,
    let m := signal_manager w in
    let added := uploaded_signals (read_csv w) file_paths (next_signal_id m) in
    signal_manager (snd (upload_signal file_paths w))
    = mkSignalManager (signals m ++ added) (next_signal_id m + len added) (snr m).
Proof.
  exact upload_signal_manager.
Qed.

(** ** Signals that cannot be summed *)








(** ** Linear interpolation of the samples *)

Lemma Qlt_bool_true : forall x y, Qlt_bool x y = true <-> x < y.
Proof.
  intros x y. unfold Qlt_bool. rewrite negb_true_iff.
  split; intro H.
  - apply Qnot_le_lt. intro Hle. apply Qle_bool_iff in Hle. congruence.
  - destruct (Qle_bool y x) eqn:E; [ | reflexivity ].
    apply Qle_bool_iff in E. lra.
Qed.

Lemma Qlt_bool_false : forall x y, Qlt_bool x y = false <-> y <= x.
Proof.
  intros x y. unfold Qlt_bool. rewrite negb_false_iff. apply Qle_bool_iff.
Qed.

Lemma combine_by_abscissa :
  forall xp fp, StronglySorted Qlt xp -> StronglySorted by_abscissa (combine xp fp).
Proof.
  induction xp as [| x xp IH]; intros fp H; [ constructor | ].
  destruct fp as [| y fp]; [ constructor | ].
  inversion H as [| ? ? Hs Hall]; subst. cbn [combine]. constructor.
  - apply IH. exact Hs.
  - apply Forall_forall. intros [x' y'] Hin. unfold by_abscissa. cbn [fst].
    apply in_combine_l in Hin. rewrite Forall_forall in Hall. apply Hall. exact Hin.
Qed.





Lemma interp_from_at_start :
  forall x rest x0 y0,
    StronglySorted by_abscissa ((x0, y0) :: rest) -> x == x0 ->
    interp_from x x0 y0 rest == y0.
Proof.
  intros x [| [x1 y1] rest] x0 y0 Hs Hx; [ reflexivity | ].
  cbn [interp_from]. inversion Hs as [| ? ? Hs' Hfa]; subst.
  inversion Hfa as [| ? ? H01 _]; subst. unfold by_abscissa in H01. cbn [fst] in H01.
  assert (E : Qlt_bool x x1 = true) by (apply Qlt_bool_true; lra).
  rewrite E. rewrite Hx. field. lra.
Qed.

Lemma interp_from_knot :
  forall x rest x0 y0 j,
    StronglySorted by_abscissa ((x0, y0) :: rest) ->
    (j < length rest)%nat -> x == fst (nth j rest (0, 0)) ->
    interp_from x x0 y0 rest == snd (nth j rest (0, 0)).
Proof.
  intros x. induction rest as [| [x1 y1] rest IH]; intros x0 y0 j Hs Hj Hx;
    [ cbn in Hj; lia | ].
  inversion Hs as [| ? ? Hs' Hfa]; subst.
  cbn [interp_from]. destruct j as [| j].
  - cbn [nth fst snd] in *.
    assert (E : Qlt_bool x x1 = false) by (apply Qlt_bool_false; lra).
    rewrite E. apply interp_from_at_start; assumption.
  - cbn [nth] in *. cbn [length] in Hj.
    inversion Hs' as [| ? ? Hs'' Hfa']; subst.
    assert (Hgt : x1 < fst (nth j rest (0, 0))).
    { rewrite Forall_forall in Hfa'.
      apply (Hfa' (nth j rest (0, 0))). apply nth_In. lia. }
    assert (E : Qlt_bool x x1 = false) by (apply Qlt_bool_false; lra).
    rewrite E. apply IH; [ exact Hs' | lia | exact Hx ].
Qed.

Lemma interp1_knot :
  forall xp fp x j,
    StronglySorted Qlt xp -> length fp = length xp ->
    (j < length xp)%nat -> x == nth j xp 0 ->
    interp1 xp fp x == nth j fp 0.
Proof.
  intros xp fp x j Hs Hlen Hj Hx.
  pose proof (combine_by_abscissa fp Hs) as Hc.
  assert (Hnth : forall k, nth k (combine xp fp) (0, 0) = (nth k xp 0, nth k fp 0))
    by (intro k; apply combine_nth; symmetry; exact Hlen).
  assert (Hcl : length (combine xp fp) = length xp)
    by (rewrite length_combine, Hlen; apply Nat.min_id).
  unfold interp1.
  destruct (combine xp fp) as [| [x0 y0] rest] eqn:E; [ cbn in Hcl; lia | ].
  destruct j as [| j].
  - specialize (Hnth 0%nat). cbn [nth] in Hnth. injection Hnth as Hx0 Hy0.
    rewrite <- Hy0.
    assert (El : Qle_bool x x0 = true) by (apply Qle_bool_iff; rewrite Hx0; lra).
    rewrite El. reflexivity.
  - pose proof (Hnth 0%nat) as H0. cbn [nth] in H0. injection H0 as Hx0 Hy0.
    pose proof (Hnth (S j)) as HS. cbn [nth] in HS.
    cbn [length] in Hcl.
    destruct (StronglySorted_inv Hc) as [Hs' Hfa].
    assert (Hgt : x0 < fst (nth j rest (0, 0))).
    { rewrite Forall_forall in Hfa.
      apply (Hfa (nth j rest (0, 0))). apply nth_In. lia. }
    rewrite HS in Hgt. cbn [fst] in Hgt.
    assert (El : Qle_bool x x0 = false).
    { destruct (Qle_bool x x0) eqn:El; [ | reflexivity ].
      apply Qle_bool_iff in El. lra. }
    rewrite El.
    rewrite (@interp_from_knot x rest x0 y0 j Hc); [ rewrite HS; reflexivity | lia | ].
    rewrite HS. exact Hx.
Qed.

(** X14: where a sample instant falls on a time point of the signal, the
    sampled amplitude is the amplitude at that point: for strictly increasing
    time values, if sample i is taken at time[j] then sampled_amplitude[i]
    equals amplitude[j]. *)
Theorem take_samples_exact_at_time_points :
  forall w time amplitude f t0,
    hd_error time = Some t0 -> f <> 0%Z ->
    StronglySorted Qlt time -> length amplitude = length time ->
    let r := take_samples time amplitude f w in
    forall s, samples (snd r) = Some s ->
    forall i j,
      (i < length s)%nat -> (j < length time)%nat ->
      nth i s 0 == nth j time 0 ->
      nth i (sampled_amplitude (snd r)) 0 == nth j amplitude 0.
Proof.
  intros w time amplitude f t0 Hhd Hf Hs Hlen r s Hsam i j Hi Hj Heq.
  subst r. rewrite (@take_samples_run w time amplitude f t0 Hhd Hf Hlen) in *.
  cbn [snd samples sampled_amplitude set_original_plot set_sampled_amplitude
           set_samples] in *.
  injection Hsam as <-. unfold sample_values.
  rewrite nth_map_in_range by exact Hi.
  apply interp1_knot; assumption.
Qed.

Lemma last_as_nth : forall (l : list Q), last l 0 = nth (length l - 1) l 0.
Proof.
  induction l as [| x l IH]; [ reflexivity | ].
  destruct l as [| y l]; [ reflexivity | ].
  change (last (x :: y :: l) 0) with (last (y :: l) 0). rewrite IH.
  cbn [length].
  replace (S (S (length l)) - 1)%nat with (S (length l)) by lia.
  replace (S (length l) - 1)%nat with (length l) by lia.
  reflexivity.
Qed.

Lemma sorted_of_nth :
  forall l : list Q,
    (forall i j, (i < j)%nat -> (j < length l)%nat -> nth i l 0 < nth j l 0) ->
    StronglySorted Qlt l.
Proof.
  induction l as [| x l IH]; intro H; constructor.
  - apply IH. intros i j Hij Hj.
    apply (H (S i) (S j)); cbn [length]; lia.
  - apply Forall_forall. intros y Hy.
    destruct (In_nth l y 0 Hy) as [k [Hk <-]].
    apply (H 0%nat (S k)); cbn [length]; lia.
Qed.

(** X15: sampling a uniformly spaced signal at its own rate gives back its
    points, all but the last: if time[j] = t0 + j / f for the n >= 2 points
    of the signal, take_samples at frequency f stores n - 1 samples, and
    sampled_amplitude[i] equals amplitude[i] for i < n - 1.  The last point
    is left out because np.arange stops before the last time value. *)
Theorem take_samples_at_own_rate :
  forall w time amplitude f t0,
    (0 < f)%Z -> (2 <= length time)%nat -> length amplitude = length time ->
    (forall j, (j < length time)%nat ->
               nth j time 0 == t0 + inject_Z (Z.of_nat j) / inject_Z f) ->
    let r := take_samples time amplitude f w in
    fst r = Ok tt
    /\ length (sampled_amplitude (snd r)) = (length time - 1)%nat
    /\ forall i, (i < length time - 1)%nat ->
                 nth i (sampled_amplitude (snd r)) 0 == nth i amplitude 0.
Proof.
  intros w time amplitude f t0 Hf Hn Hlen Hgrid r.
  pose proof (inject_Z_pos Hf) as HF.
  assert (Hs : StronglySorted Qlt time).
  { apply sorted_of_nth. intros i j Hij Hj.
    rewrite (Hgrid i) by lia. rewrite (Hgrid j) by exact Hj.
    assert (Hz : inject_Z (Z.of_nat i) < inject_Z (Z.of_nat j))
      by (rewrite <- Zlt_Qlt; lia).
    assert (Hd : inject_Z (Z.of_nat i) / inject_Z f < inject_Z (Z.of_nat j) / inject_Z f).
    { apply Qlt_shift_div_l; [ exact HF | ].
      assert (E : inject_Z (Z.of_nat i) / inject_Z f * inject_Z f
                  == inject_Z (Z.of_nat i)) by (field; lra).
      rewrite E. exact Hz. }
    lra. }
  assert (Hhd : hd_error time = Some (nth 0 time 0))
    by (destruct time; [ cbn in Hn; lia | reflexivity ]).
  assert (Hh : hd 0 time = nth 0 time 0) by (destruct time; reflexivity).
  assert (Hf0 : f <> 0%Z) by lia.
  assert (Hlast : last time 0 == t0 + inject_Z (Z.of_nat (length time - 1)) / inject_Z f).
  { rewrite last_as_nth. apply Hgrid. lia. }
  assert (Hfirst : nth 0 time 0 == t0).
  { rewrite (Hgrid 0%nat) by lia. change (inject_Z (Z.of_nat 0)) with 0. field. lra. }
  assert (Hcount : length (sample_instants time f) = (length time - 1)%nat).
  { rewrite (@sample_instants_length time f (nth 0 time 0) (last time 0) Hhd eq_refl Hf).
    assert (E : (last time 0 - nth 0 time 0) * inject_Z f
                == inject_Z (Z.of_nat (length time - 1))).
    { rewrite Hlast, Hfirst. field. lra. }
    rewrite (Qceiling_comp _ _ E), Qceiling_Z. lia. }
  subst r. rewrite (@take_samples_run w time amplitude f (nth 0 time 0) Hhd Hf0 Hlen).
  cbn [fst snd sampled_amplitude set_original_plot set_sampled_amplitude].
  split; [ reflexivity | ]. split.
  - unfold sample_values. rewrite length_map. exact Hcount.
  - intros i Hi. unfold sample_values.
    rewrite nth_map_in_range by (rewrite Hcount; exact Hi).
    apply interp1_knot; [ exact Hs | exact Hlen | lia | ].
    unfold sample_instants in *. rewrite np_arange_nth.
    + rewrite (Hgrid i) by lia. rewrite Hh, Hfirst.
      change (inject_Z 1) with 1. field. lra.
    + rewrite Hcount. exact Hi.
Qed.

(** ** Noise from call to call *)

(** X16: two calls of get_combined_signal_with_noise in a row return the same
    time base and the same summed signal under different noise: the first
    call uses the next n draws of the generator, the second the n draws after
    those, n being the length of the time base. *)
Theorem get_combined_twice_fresh_noise :
  forall w first rest,
    signals (signal_manager w) = first :: rest ->
    (forall s, In s (first :: rest) -> length (amplitude s) = length (time first)) ->
    let n := length (time first) in
    let r1 := get_combined_signal_with_noise w in
    let r2 := get_combined_signal_with_noise (snd r1) in
    exists combined,
      sum_amplitudes (np_zeros_like (time first)) (first :: rest) = Ok combined
      /\ fst r1 = Ok (Some (time first,
                            noisy_of combined (snr (signal_manager w))
                                     (map (random_state w) (seq 0 n))))
      /\ fst r2 = Ok (Some (time first,
                            noisy_of combined (snr (signal_manager w))
                                     (map (fun i => random_state w (n + i)%nat)
                                          (seq 0 n)))).
Proof.
  intros w first rest Hsig Hlen n r1 r2.
  destruct (sum_amplitudes_pointwise (first :: rest) (np_zeros_like (time first)))
    as [combined [Hsum [Hl _]]].
  { intros s Hin. unfold np_zeros_like. rewrite length_map. apply Hlen. exact Hin. }
  unfold np_zeros_like in Hl. rewrite length_map in Hl. fold n in Hl.
  exists combined. split; [ exact Hsum | ].
  assert (H1 : r1 = (Ok (Some (time first,
                        noisy_of combined (snr (signal_manager w))
                                 (next_draws w (length combined)))),
                     set_random_state
                       (fun i => random_state w (length combined + i)%nat) w))
    by (apply (get_combined_exact w Hsig Hsum)).
  split.
  - rewrite H1, Hl. reflexivity.
  - subst r2. rewrite H1. cbn [snd].
    erewrite get_combined_exact; [ | exact Hsig | exact Hsum ].
    rewrite Hl. reflexivity.
Qed.

(** ** The default time base *)

Lemma np_linspace_nth :
  forall start stop div i,
    (i <= S div)%nat ->
    nth i (np_linspace start stop (S (S div))) 0
    == start + inject_Z (Z.of_nat i) * ((stop - start) / inject_Z (Z.of_nat (S div))).
Proof.
  intros start stop div i Hi. unfold np_linspace.
  assert (Hpos : 0 < inject_Z (Z.of_nat (S div))).
  { change 0 with (inject_Z 0). rewrite <- Zlt_Qlt. lia. }
  destruct (Nat.eq_dec i (S div)) as [-> | Hne].
  - rewrite app_nth2; rewrite length_map, length_seq; [ | lia ].
    rewrite Nat.sub_diag. cbn [nth]. field. lra.
  - rewrite app_nth1 by (rewrite length_map, length_seq; lia).
    rewrite (nth_indep _ 0 (start + inject_Z (Z.of_nat 0)
                                    * ((stop - start) / inject_Z (Z.of_nat (S div)))))
      by (rewrite length_map, length_seq; lia).
    rewrite (map_nth (fun i => start + inject_Z (Z.of_nat i)
                                       * ((stop - start) / inject_Z (Z.of_nat (S div))))).
    rewrite seq_nth by lia. reflexivity.
Qed.

(** X17: the default time base of a synthetic component, built when the store
    is empty, has its 1000 points at i / 999 seconds, i = 0, ..., 999: the
    spacing is 1/999 s (np.linspace includes the end point), not the 1/1000 s
    of the "sampling rate 1000 Hz" in the code's comment. *)
Theorem default_time_base_spacing :
  forall w ftext atext f A,
    py_float ftext = Some f -> py_float atext = Some A ->
    signals (signal_manager w) = [] ->
    exists s,
      signals (signal_manager (snd (add_signal_component ftext atext w))) = [s]
      /\ length (time s) = 1000%nat
      /\ forall i, (i < 1000)%nat -> nth i (time s) 0 == inject_Z (Z.of_nat i) / 999.
Proof.
  intros w ftext atext f A Hf HA Hsig.
  rewrite (@add_signal_component_manager w ftext atext f A Hf HA).
  cbn [incr_next_signal_id append_signal signals]. rewrite Hsig. cbn [app].
  eexists. split; [ reflexivity | ]. cbn [time]. split.
  - apply np_linspace_length.
  - intros i Hi.
    rewrite (@np_linspace_nth 0 (1000 / 1000) 998 i) by lia.
    change (inject_Z (Z.of_nat 999)) with 999. field.
Qed.

(** ** One amplitude per time point *)

Lemma uploaded_signals_aligned :
  forall files file_paths next,
    tables_well_formed files ->
    Forall (fun s => length (amplitude s) = length (time s))
           (uploaded_signals files file_paths next).
Proof.
  intros files file_paths next Hwf. revert next.
  induction file_paths as [| p rest IH]; intro next; cbn [uploaded_signals];
    [ constructor | ].
  destruct (files p) as [e | data] eqn:Hp; [ apply IH | ].
  destruct (shape1 data <? 2)%nat eqn:E; [ apply IH | ].
  apply Nat.ltb_ge in E. constructor; [ | apply IH ].
  cbn [amplitude time].
  rewrite !iloc_column_length; [ reflexivity | | | | ];
    first [ exact (Hwf p data Hp) | lia ].
Qed.

Lemma add_signal_component_manager_or_same :
  forall w ftext atext,
    signal_manager (snd (add_signal_component ftext atext w)) = signal_manager w
    \/ exists f A,
         let m := signal_manager w in
         let t := match signals m with
                  | first :: _ => time first
                  | [] => np_linspace 0 (1000 / 1000) 1000
                  end in
         signal_manager (snd (add_signal_component ftext atext w))
         = incr_next_signal_id
             (append_signal
                (mkSignal (map (fun x => A * np_sin (2 * np_pi * f * x)) t) t (Some f)
                          (next_signal_id m) "sinusoidal")
                m).
Proof.
  intros w ftext atext.
  destruct (py_float ftext) as [f |] eqn:Hf; [ destruct (py_float atext) as [A |] eqn:HA | ].
  - right. exists f, A. apply (@add_signal_component_manager w ftext atext f A Hf HA).
  - left. unfold add_signal_component.
    rewrite try_except_manager by apply keeps_invalid_input_handler.
    rewrite Hf, HA. reflexivity.
  - left. unfold add_signal_component.
    rewrite try_except_manager by apply keeps_invalid_input_handler.
    rewrite Hf. reflexivity.
Qed.

Lemma run_op_aligned :
  forall op w,
    tables_well_formed (read_csv w) -> aligned (signal_manager w) ->
    aligned (signal_manager (run_op op w)).
Proof.
  intros [file_paths | ftext atext | snr_value | ] w Hwf Ha; unfold run_op, aligned in *.
  - rewrite upload_signal_manager. cbn [signals]. apply Forall_app. split.
    + exact Ha.
    + apply uploaded_signals_aligned. exact Hwf.
  - destruct (add_signal_component_manager_or_same w ftext atext) as [H | [f [A H]]].
    + rewrite H. exact Ha.
    + cbv zeta in H. rewrite H. cbn [incr_next_signal_id append_signal signals].
      apply Forall_app. split; [ exact Ha | ].
      constructor; [ | constructor ]. cbn [amplitude time]. apply length_map.
  - exact Ha.
  - rewrite keeps_get_combined_signal_with_noise. exact Ha.
Qed.

(** X18: as long as every file reads as a table whose columns have one length
    (as the tables of pandas do), every signal in the store has exactly one
    amplitude per time point, after any sequence of store operations from
    start-up. *)
Theorem session_keeps_signals_aligned :
  forall ops draws files,
    tables_well_formed files ->
    aligned (signal_manager (run_ops ops (initial_app draws files))).
Proof.
  intros ops draws files Hwf.
  assert (H : forall w, read_csv w = files -> aligned (signal_manager w) ->
                        aligned (signal_manager (run_ops ops w))).
  { induction ops as [| op ops IH]; intros w Hw Ha; [ exact Ha | ].
    cbn [run_ops]. apply IH.
    - rewrite keeps_read_csv_run_op. exact Hw.
    - apply run_op_aligned; [ rewrite Hw; exact Hwf | exact Ha ]. }
  apply H; [ reflexivity | constructor ].
Qed.

(** ** Sessions of synthetic components only *)

Lemma run_op_on_default_base :
  forall op w,
    no_upload op = true -> on_default_base (signal_manager w) ->
    on_default_base (signal_manager (run_op op w)).
Proof.
  intros [file_paths | ftext atext | snr_value | ] w Hop Hb;
    unfold run_op, on_default_base in *; [ discriminate | | exact Hb | ].
  - destruct (add_signal_component_manager_or_same w ftext atext) as [H | [f [A H]]].
    + rewrite H. exact Hb.
    + cbv zeta in H. rewrite H. cbn [incr_next_signal_id append_signal signals].
      apply Forall_app. split; [ exact Hb | ].
      constructor; [ | constructor ]. cbn [amplitude time].
      assert (Ht : match signals (signal_manager w) with
                   | [] => np_linspace 0 (1000 / 1000) 1000
                   | first :: _ => time first
                   end = np_linspace 0 (1000 / 1000) 1000).
      { destruct (signals (signal_manager w)) as [| first rest]; [ reflexivity | ].
        inversion Hb as [| ? ? [Hfirst _] _]. exact Hfirst. }
      rewrite Ht. split; [ reflexivity | ].
      rewrite length_map. apply np_linspace_length.
  - rewrite keeps_get_combined_signal_with_noise. exact Hb.
Qed.

(** X19: in a session that loads no file, every component added lies on the
    default time base of 1000 points with 1000 amplitudes, so the signals can
    always be summed: get_combined_signal_with_noise returns at any point of
    such a session. *)
Theorem synthetic_session_can_be_combined :
  forall ops draws files,
    forallb no_upload ops = true ->
    let w := run_ops ops (initial_app draws files) in
    on_default_base (signal_manager w)
    /\ exists r, fst (get_combined_signal_with_noise w) = Ok r.
Proof.
  intros ops draws files Hops w.
  assert (H : forall w0, on_default_base (signal_manager w0) ->
                         on_default_base (signal_manager (run_ops ops w0))).
  { clear w. induction ops as [| op ops IH]; intros w0 Hb; [ exact Hb | ].
    cbn [forallb] in Hops. apply andb_true_iff in Hops. destruct Hops as [Hop Hrest].
    cbn [run_ops]. apply IH; [ exact Hrest | ].
    apply run_op_on_default_base; assumption. }
  assert (Hb : on_default_base (signal_manager w)) by (apply H; constructor).
  split; [ exact Hb | ].
  destruct (signals (signal_manager w)) as [| first rest] eqn:Hsig.
  - exists None. rewrite get_combined_empty_run by exact Hsig. reflexivity.
  - destruct (@get_combined_run w first rest Hsig) as [noisy [Hrun _]].
    + unfold on_default_base in Hb. rewrite Hsig in Hb.
      rewrite Forall_forall in Hb. intros s Hin.
      destruct (Hb s Hin) as [_ Hs]. destruct (Hb first (or_introl eq_refl)) as [Hf _].
      rewrite Hs, Hf, np_linspace_length. reflexivity.
    + eexists. rewrite Hrun. reflexivity.
Qed.

(** ** The noise slider *)

(** X20: update_plot_with_noise stores the slider's value as the noise ratio,
    whatever it is, and leaves the signals and the next identifier alone; on
    an empty store it then opens the "No signals to plot." warning and does
    nothing else. *)
Theorem update_plot_with_noise_sets_ratio :
  forall slider_value w,
    let m := signal_manager w in
    let r := update_plot_with_noise slider_value w in
    snr (signal_manager (snd r)) = slider_value
    /\ signals (signal_manager (snd r)) = signals m
    /\ next_signal_id (signal_manager (snd r)) = next_signal_id m
    /\ (signals m = [] ->
        r = (Ok tt,
             set_dialogs
               (dialogs w ++ [MessageBox Warning "No Signal" "No signals to plot."])
               (set_signal_manager
                  (mkSignalManager [] (next_signal_id m) slider_value) w))).
Proof.
  intros v w m r.
  assert (Hm : signal_manager (snd r)
               = mkSignalManager (signals m) (next_signal_id m) v).
  { subst r. unfold update_plot_with_noise.
    erewrite bind_run by reflexivity.
    rewrite keeps_plot_signals. reflexivity. }
  rewrite Hm. split; [ reflexivity | ]. split; [ reflexivity | ].
  split; [ reflexivity | ].
  intro Hsig. subst r. unfold update_plot_with_noise.
  erewrite bind_run by reflexivity.
  unfold plot_signals. erewrite bind_run by reflexivity. cbv beta.
  cbn [signal_manager set_signal_manager signals]. fold m. rewrite Hsig.
  reflexivity.
Qed.


(** ** A time span of at most one sampling period *)

Lemma reconstruct_few_instants :
  forall w s a, (length s < 2)%nat -> exists e, fst (reconstruct s a w) = Raise e.
Proof.
  intros w s a Hs. unfold reconstruct.
  erewrite bind_run by reflexivity.
  destruct a as [| a0 a'].
  - exists ValueError. reflexivity.
  - exists IndexError. erewrite bind_raise; [ reflexivity | ].
    unfold lift.
    rewrite (@scipy_signal_resample_one_instant (a0 :: a') 5000 s); [ reflexivity | | exact Hs ].
    discriminate.
Qed.

Lemma ceiling_at_most_one : forall x, x <= 1 -> (Qceiling x <= 1)%Z.
Proof.
  intros x H. pose proof (Qceiling_resp_le x 1 H) as Hc.
  change (Qceiling 1) with 1%Z in Hc. exact Hc.
Qed.

Lemma start_few_samples :
  forall w amplitude time t0 tN,
    hd_error time = Some t0 -> last time 0 = tN ->
    (0 < sampling_frequency w)%Z ->
    (tN - t0) * inject_Z (sampling_frequency w) <= 1 ->
    length amplitude = length time ->
    exists e, fst (start amplitude time w) = Raise e.
Proof.
  intros w amplitude time t0 tN Hhd Hlast Hf Hspan Hlen.
  set (f := sampling_frequency w) in *.
  assert (Hs : (length (sample_instants time f) < 2)%nat).
  { rewrite (@sample_instants_length time f t0 tN Hhd Hlast Hf).
    pose proof (@ceiling_at_most_one _ Hspan). lia. }
  unfold start.
  erewrite bind_run by reflexivity.
  erewrite bind_run by reflexivity.
  erewrite bind_run by reflexivity.
  erewrite bind_run by reflexivity.
  erewrite bind_run by reflexivity.
  erewrite bind_run.
  2: { apply (@take_samples_run _ time amplitude f t0 Hhd); [ lia | exact Hlen ]. }
  erewrite bind_run by reflexivity.
  erewrite bind_run by reflexivity.
  erewrite bind_run by reflexivity.
  erewrite bind_run by reflexivity.
  erewrite bind_run by reflexivity.
  erewrite bind_run by reflexivity.
  erewrite bind_run by reflexivity.
  erewrite bind_run by reflexivity.
  apply reconstruct_few_instants. exact Hs.
Qed.

Lemma plot_signals_few_samples :
  forall w first rest t0 tN,
    signals (signal_manager w) = first :: rest ->
    (forall s, In s (first :: rest) -> length (amplitude s) = length (time first)) ->
    hd_error (time first) = Some t0 -> last (time first) 0 = tN ->
    (0 < sampling_frequency w)%Z ->
    (tN - t0) * inject_Z (sampling_frequency w) <= 1 ->
    exists e, fst (plot_signals w) = Raise e.
Proof.
  intros w first rest t0 tN Hsig Hlen Hhd Hlast Hf Hspan.
  destruct (@get_combined_run w first rest Hsig Hlen) as [noisy [Hrun Hn]].
  unfold plot_signals.
  erewrite bind_run by reflexivity. cbv beta. rewrite Hsig.
  erewrite bind_run by exact Hrun. cbv beta iota.
  erewrite bind_run by reflexivity.
  apply (@start_few_samples _ noisy (time first) t0 tN Hhd Hlast);
    [ exact Hf | exact Hspan | exact Hn ].
Qed.

(** X22: a first file whose time column spans at most one sampling period
    (a single row, a time column that does not increase, or a recording no
    longer than 1 / f) is stored, and the load is reported as failed: too few
    samples reach reconstruct, which raises inside the try of upload_signal. *)
Theorem upload_signal_short_span_reports_failure :
  forall w file_path data t0 tN,
    read_csv w file_path = inr data -> df_wf data -> (2 <= shape1 data)%nat ->
    signals (signal_manager w) = [] ->
    hd_error (iloc_column data 0) = Some t0 -> last (iloc_column data 0) 0 = tN ->
    (0 < sampling_frequency w)%Z ->
    (tN - t0) * inject_Z (sampling_frequency w) <= 1 ->
    let r := upload_signal [file_path] w in
    fst r = Ok tt
    /\ signals (signal_manager (snd r))
       = [mkSignal (iloc_column data 1) (iloc_column data 0) None
                   (next_signal_id (signal_manager w)) "UPLOADED"]
    /\ dialogs (snd r)
       = dialogs w ++ [MessageBox Critical "Error"
                         ("Failed to load signal '" ++ file_path ++ "'")].
Proof.
  intros w file_path data t0 tN Hread Hwf Hcols Hsig Hhd Hlast Hf Hspan r.
  subst r. rewrite upload_signal_one.
  split; [ apply upload_file_returns | ]. split.
  - rewrite (@upload_file_manager w file_path data Hread Hcols).
    cbn [incr_next_signal_id append_signal signals]. rewrite Hsig. reflexivity.
  - unfold upload_file, try_except.
    erewrite bind_run by reflexivity. cbv beta. rewrite Hread.
    destruct (shape1 data <? 2)%nat eqn:E; [ apply Nat.ltb_lt in E; lia | ].
    erewrite bind_run by reflexivity. cbv beta zeta.
    erewrite bind_run by reflexivity.
    erewrite bind_run by reflexivity.
    match goal with
    | |- context [plot_signals ?w1] =>
        assert (Hd : dialogs (snd (plot_signals w1)) = dialogs w);
        [ rewrite plot_signals_dialogs;
          [ reflexivity
          | cbn [signal_manager set_signal_manager signals incr_next_signal_id
                   append_signal modify_manager];
            rewrite Hsig; discriminate ]
        | assert (He : exists e, fst (plot_signals w1) = Raise e);
          [ | destruct He as [e He];
              destruct (plot_signals w1) as [[[] | e'] w2]; cbn [fst snd] in *;
              [ discriminate
              | unfold message_box, modify; cbn [snd dialogs set_dialogs];
                rewrite Hd; reflexivity ] ] ]
    end.
    eapply plot_signals_few_samples.
    + cbn [signal_manager set_signal_manager signals incr_next_signal_id
             append_signal modify_manager].
      rewrite Hsig. reflexivity.
    + intros s [<- | []]. cbn [amplitude time].
      rewrite !iloc_column_length; [ reflexivity | | | | ]; first [ exact Hwf | lia ].
    + exact Hhd.
    + exact Hlast.
    + exact Hf.
    + exact Hspan.
Qed.

(** ** Loading and adding a signal that displays *)



End Proofs.

(** * The theorems at concrete inputs *)

#[local] Existing Instance rational_library.




Lemma add_signal_component_appends_witness :
  py_float "5" = Some 5
  /\ py_float "2" = Some 2
  /\ exists s,
       signals (signal_manager (snd (add_signal_component "5" "2" demo_loaded)))
       = [demo_ramp; s]
       /\ time s = time demo_ramp
       /\ (forall i, (i < 3)%nat ->
             nth i (amplitude s) 0 = 2 * np_sin (2 * np_pi * 5 * nth i (time s) 0)).
Proof.
  split; [ reflexivity | ]. split; [ reflexivity | ].
  destruct (@add_signal_component_appends rational_library demo_loaded "5" "2" 5 2
              eq_refl eq_refl)
    as [s [H1 [H2 [_ [_ [H3 _]]]]]].
  exists s. split; [ exact H1 | ].
  pose proof (H2 demo_ramp [] eq_refl) as Ht.
  split; [ exact Ht | ].
  intros i Hi. apply H3. rewrite Ht. exact Hi.
Defined.

Lemma get_combined_empty_witness :
  signals (signal_manager demo_app) = []
  /\ get_combined_signal_with_noise demo_app = (Ok None, demo_app).
Proof.
  split; [ reflexivity | ].
  apply (@get_combined_empty rational_library demo_app). reflexivity.
Defined.

(** C5 as the spec words it fails on a single sample: scipy's resample needs
    two sample instants to space the new time axis, so reconstruct raises and
    no series is shown. *)
Lemma reconstruct_single_sample_raises :
  fst (reconstruct [0] [1] demo_app) = Raise IndexError
  /\ reconstruction_viewer (snd (reconstruct [0] [1] demo_app)) = [].
Proof. split; vm_compute; reflexivity. Qed.

Lemma reconstruct_5000_points_witness :
  (2 <= length [0; 1])%nat
  /\ [5; 6] <> []
  /\ exists reconstructed_time reconstructed_amplitude,
       fst (reconstruct [0; 1] [5; 6] demo_app) = Ok tt
       /\ reconstruction_viewer (snd (reconstruct [0; 1] [5; 6] demo_app))
          = [(reconstructed_time, reconstructed_amplitude)]
       /\ length reconstructed_time = 5000%nat
       /\ length reconstructed_amplitude = 5000%nat.
Proof.
  split; [ apply le_n | ]. split; [ discriminate | ].
  apply (@reconstruct_5000_points rational_library demo_app [0; 1] [5; 6]).
  - apply le_n.
  - discriminate.
Defined.

Lemma upload_signal_appends_one_witness :
  read_csv demo_app "ramp.csv" = inr (mkDataFrame 3 [[0; 1; 2]; [5; 6; 7]])
  /\ exists s,
       signals (signal_manager (snd (upload_signal ["ramp.csv"%string] demo_app))) = [s]
       /\ length (time s) = 3%nat
       /\ length (amplitude s) = 3%nat.
Proof.
  split; [ reflexivity | ].
  destruct (@upload_signal_appends_one rational_library demo_app "ramp.csv"
              (mkDataFrame 3 [[0; 1; 2]; [5; 6; 7]]) 3 eq_refl)
    as [s [H1 [_ [_ [H2 [H3 _]]]]]].
  - repeat constructor.
  - apply le_n.
  - reflexivity.
  - exists s. split; [ exact H1 | split; [ exact H2 | exact H3 ] ].
Defined.

Lemma add_signal_component_invalid_text_witness :
  py_float "5 Hz" = None
  /\ signals (signal_manager (snd (add_signal_component "5 Hz" "1" demo_loaded)))
     = [demo_ramp]
  /\ next_signal_id (signal_manager (snd (add_signal_component "5 Hz" "1" demo_loaded)))
     = 2%Z.
Proof.
  split; [ reflexivity | ].
  destruct (@add_signal_component_invalid_text rational_library demo_loaded "5 Hz" "1"
              (or_introl eq_refl))
    as [_ [H1 [H2 _]]].
  split; [ exact H1 | exact H2 ].
Defined.

Lemma store_operations_preserve_invariant_witness :
  store_inv (signal_manager demo_loaded)
  /\ store_inv (signal_manager (snd (upload_signal ["ramp.csv"%string] demo_loaded)))
  /\ ids_well_formed (signal_manager (snd (add_signal_component "5" "2" demo_loaded))).
Proof.
  assert (H : store_inv (signal_manager demo_loaded)) by (split; reflexivity).
  split; [ exact H | ].
  destruct (@store_operations_preserve_invariant rational_library demo_loaded H)
    as [Hup [Hadd _]].
  split.
  - destruct (Hup ["ramp.csv"%string]) as [_ [Hinv _]]. exact Hinv.
  - destruct (Hadd "5"%string "2"%string) as [_ [_ Hwf]]. exact Hwf.
Defined.

Lemma first_component_at_startup_raises_witness :
  py_float "5" = Some 5
  /\ py_float "2" = Some 2
  /\ fst (add_signal_component "5" "2" (initial_app demo_draws demo_files))
     = Raise IndexError.
Proof.
  split; [ reflexivity | ]. split; [ reflexivity | ].
  exact (proj1 (@first_component_at_startup_raises rational_library demo_draws
                  demo_files "5" "2" 5 2 eq_refl eq_refl)).
Defined.








Lemma take_samples_exact_at_time_points_witness :
  hd_error [0; 1; 2] = Some 0
  /\ 1%Z <> 0%Z
  /\ StronglySorted Qlt [0; 1; 2]
  /\ length [5; 6; 7] = length [0; 1; 2]
  /\ samples (snd (take_samples [0; 1; 2] [5; 6; 7] 1 demo_app)) = Some [0; 1]
  /\ (1 < length [0; 1])%nat
  /\ (1 < length [0; 1; 2])%nat
  /\ nth 1 [0; 1] 0 == nth 1 [0; 1; 2] 0
  /\ nth 1 (sampled_amplitude (snd (take_samples [0; 1; 2] [5; 6; 7] 1 demo_app))) 0
     == nth 1 [5; 6; 7] 0.
Proof.
  assert (Hs : StronglySorted Qlt [0; 1; 2]) by (repeat constructor).
  assert (Hf : 1%Z <> 0%Z) by discriminate.
  assert (Hsam : samples (snd (take_samples [0; 1; 2] [5; 6; 7] 1 demo_app))
                 = Some [0; 1]) by reflexivity.
  assert (Hi : (1 < length [0; 1])%nat) by (cbn; lia).
  assert (Hj : (1 < length [0; 1; 2])%nat) by (cbn; lia).
  assert (Heq : nth 1 [0; 1] 0 == nth 1 [0; 1; 2] 0) by reflexivity.
  split; [ reflexivity | ]. split; [ exact Hf | ]. split; [ exact Hs | ].
  split; [ reflexivity | ]. split; [ exact Hsam | ]. split; [ exact Hi | ].
  split; [ exact Hj | ]. split; [ exact Heq | ].
  exact (@take_samples_exact_at_time_points demo_app [0; 1; 2] [5; 6; 7] 1%Z 0
           eq_refl Hf Hs eq_refl [0; 1] Hsam 1%nat 1%nat Hi Hj Heq).
Defined.

Lemma take_samples_at_own_rate_witness :
  (0 < 1)%Z
  /\ (2 <= length [0; 1; 2])%nat
  /\ length [5; 6; 7] = length [0; 1; 2]
  /\ (forall j, (j < length [0; 1; 2])%nat ->
                nth j [0; 1; 2] 0 == 0 + inject_Z (Z.of_nat j) / inject_Z 1)
  /\ length (sampled_amplitude (snd (take_samples [0; 1; 2] [5; 6; 7] 1 demo_app)))
     = (length [0; 1; 2] - 1)%nat
  /\ forall i, (i < length [0; 1; 2] - 1)%nat ->
               nth i (sampled_amplitude
                        (snd (take_samples [0; 1; 2] [5; 6; 7] 1 demo_app))) 0
               == nth i [5; 6; 7] 0.
Proof.
  assert (Hn : (2 <= length [0; 1; 2])%nat) by (cbn; lia).
  assert (Hgrid : forall j, (j < length [0; 1; 2])%nat ->
                    nth j [0; 1; 2] 0 == 0 + inject_Z (Z.of_nat j) / inject_Z 1).
  { intros j Hj. destruct j as [| [| [| j]]]; try (vm_compute; reflexivity).
    cbn in Hj. lia. }
  split; [ reflexivity | ]. split; [ exact Hn | ]. split; [ reflexivity | ].
  split; [ exact Hgrid | ].
  exact (proj2 (@take_samples_at_own_rate demo_app [0; 1; 2] [5; 6; 7] 1%Z 0
                  eq_refl Hn eq_refl Hgrid)).
Defined.

Lemma get_combined_twice_fresh_noise_witness :
  signals (signal_manager demo_loaded) = [demo_ramp]
  /\ (forall s, In s [demo_ramp] -> length (amplitude s) = length (time demo_ramp))
  /\ exists combined,
       sum_amplitudes (np_zeros_like (time demo_ramp)) [demo_ramp] = Ok combined
       /\ fst (get_combined_signal_with_noise
                 (snd (get_combined_signal_with_noise demo_loaded)))
          = Ok (Some (time demo_ramp,
                      noisy_of combined (snr (signal_manager demo_loaded))
                               (map (fun i => random_state demo_loaded (3 + i)%nat)
                                    (seq 0 3)))).
Proof.
  assert (Hlen : forall s, In s [demo_ramp] ->
                           length (amplitude s) = length (time demo_ramp)).
  { intros s [<- | []]. reflexivity. }
  split; [ reflexivity | ]. split; [ exact Hlen | ].
  destruct (@get_combined_twice_fresh_noise rational_library demo_loaded demo_ramp []
              eq_refl Hlen) as [combined [H1 [_ H2]]].
  exists combined. split; [ exact H1 | exact H2 ].
Defined.

Lemma default_time_base_spacing_witness :
  py_float "5" = Some 5
  /\ py_float "2" = Some 2
  /\ signals (signal_manager demo_app) = []
  /\ exists s,
       signals (signal_manager (snd (add_signal_component "5" "2" demo_app))) = [s]
       /\ length (time s) = 1000%nat
       /\ forall i, (i < 1000)%nat -> nth i (time s) 0 == inject_Z (Z.of_nat i) / 999.
Proof.
  split; [ reflexivity | ]. split; [ reflexivity | ]. split; [ reflexivity | ].
  exact (@default_time_base_spacing rational_library demo_app "5" "2" 5 2
           eq_refl eq_refl eq_refl).
Defined.

Lemma session_keeps_signals_aligned_witness :
  tables_well_formed demo_files
  /\ aligned (signal_manager
                (run_ops [Upload ["ramp.csv"%string]; AddComponent "5" "2";
                          Upload ["one_column.csv"%string]; SetSnr 10; GetCombined]
                         (initial_app demo_draws demo_files))).
Proof.
  assert (Hwf : tables_well_formed demo_files).
  { intros p data. unfold demo_files.
    destruct (String.eqb p "ramp.csv").
    - intros [= <-]. repeat constructor.
    - destruct (String.eqb p "one_column.csv").
      + intros [= <-]. repeat constructor.
      + discriminate. }
  split; [ exact Hwf | ].
  exact (@session_keeps_signals_aligned rational_library
           [Upload ["ramp.csv"%string]; AddComponent "5" "2";
            Upload ["one_column.csv"%string]; SetSnr 10; GetCombined]
           demo_draws demo_files Hwf).
Defined.

Lemma synthetic_session_can_be_combined_witness :
  forallb no_upload [AddComponent "5" "2"; SetSnr 10; AddComponent "3" "1"; GetCombined]
  = true
  /\ exists r,
       fst (get_combined_signal_with_noise
              (run_ops [AddComponent "5" "2"; SetSnr 10; AddComponent "3" "1"; GetCombined]
                       (initial_app demo_draws demo_files)))
       = Ok r.
Proof.
  split; [ reflexivity | ].
  exact (proj2 (@synthetic_session_can_be_combined rational_library
                  [AddComponent "5" "2"; SetSnr 10; AddComponent "3" "1"; GetCombined]
                  demo_draws demo_files eq_refl)).
Defined.



Lemma upload_signal_short_span_reports_failure_witness :
  read_csv demo_small_app "single.csv" = inr (mkDataFrame 1 [[0]; [3]])
  /\ df_wf (mkDataFrame 1 [[0]; [3]])
  /\ (2 <= shape1 (mkDataFrame 1 [[0]; [3]]%Q))%nat
  /\ signals (signal_manager demo_small_app) = []
  /\ hd_error (iloc_column (mkDataFrame 1 [[0]; [3]]) 0) = Some 0
  /\ last (iloc_column (mkDataFrame 1 [[0]; [3]]) 0) 0 = 0
  /\ (0 < sampling_frequency demo_small_app)%Z
  /\ (0 - 0) * inject_Z (sampling_frequency demo_small_app) <= 1
  /\ fst (upload_signal ["single.csv"%string] demo_small_app) = Ok tt
  /\ dialogs (snd (upload_signal ["single.csv"%string] demo_small_app))
     = dialogs demo_small_app
       ++ [MessageBox Critical "Error" "Failed to load signal 'single.csv'"].
Proof.
  assert (Hwf : df_wf (mkDataFrame 1 [[0]; [3]])) by (repeat constructor).
  assert (Hcols : (2 <= shape1 (mkDataFrame 1 [[0]; [3]]%Q))%nat) by (cbn; lia).
  assert (Hspan : (0 - 0) * inject_Z (sampling_frequency demo_small_app) <= 1)
    by (vm_compute; discriminate).
  split; [ reflexivity | ]. split; [ exact Hwf | ]. split; [ exact Hcols | ].
  split; [ reflexivity | ]. split; [ reflexivity | ]. split; [ reflexivity | ].
  split; [ reflexivity | ]. split; [ exact Hspan | ].
  destruct (@upload_signal_short_span_reports_failure rational_library demo_small_app
              "single.csv" (mkDataFrame 1 [[0]; [3]]) 0 0
              eq_refl Hwf Hcols eq_refl eq_refl eq_refl eq_refl Hspan)
    as [H1 [_ H2]].
  split; [ exact H1 | exact H2 ].
Defined.




Lemma upload_signal_rejects_witness :
  read_csv demo_app "missing.csv" = inl OSError
  /\ upload_signal ["missing.csv"%string] demo_app
     = (Ok tt,
        set_dialogs
          (dialogs demo_app
           ++ [MessageBox Critical "Error" "Failed to load signal 'missing.csv'"])
          demo_app).
Proof.
  split; [ reflexivity | ].
  exact (proj1 (@upload_signal_rejects rational_library demo_app "missing.csv")
               OSError eq_refl).
Defined.

Lemma update_plot_with_noise_sets_ratio_witness :
  signals (signal_manager demo_app) = []
  /\ snr (signal_manager (snd (update_plot_with_noise 20 demo_app))) = 20%Z
  /\ update_plot_with_noise 20 demo_app
     = (Ok tt,
        set_dialogs
          (dialogs demo_app ++ [MessageBox Warning "No Signal" "No signals to plot."])
          (set_signal_manager
             (mkSignalManager [] (next_signal_id (signal_manager demo_app)) 20)
             demo_app)).
Proof.
  split; [ reflexivity | ].
  destruct (@update_plot_with_noise_sets_ratio rational_library 20%Z demo_app)
    as [H1 [_ [_ H2]]].
  split; [ exact H1 | exact (H2 eq_refl) ].
Defined.
